(** * Gravity Mobile: the N-body integrator, curvature sampler and planet builder

    A shallow embedding of [src/main.c].  The program computes on C [float]s;
    the embedding is written once over an interface of scalar operations
    ([Scalar]) and is then read at two instances:

    - [Binary32.float_scalar]: IEEE-754 binary32 with round-to-nearest-even,
      built on the standard library's [SpecFloat]; it is executable and is
      used to run the program on concrete inputs (infinities and NaN
      included);
    - [Exact.real_scalar]: the real numbers, used for the statements that
      speak about exact arithmetic.

    Structural statements are proved for every instance of the interface. *)

From Stdlib Require Import ZArith QArith Reals Lra Lia.
From Stdlib Require Import Floats.SpecFloat.
From stdpp Require Import base list.

(** ** Scalar arithmetic as the program uses it *)

Class Scalar (A : Type) := {
  flit  : Q -> A;          (* a literal such as [0.0005f], or an int converted to float *)
  fadd  : A -> A -> A;
  fsub  : A -> A -> A;
  fmul  : A -> A -> A;
  fdiv  : A -> A -> A;
  fneg  : A -> A;
  fabs  : A -> A;
  fsqrt : A -> A;
  fltb  : A -> A -> bool;  (* C's [x < y]; [x > y] is [fltb y x] *)
  feqb  : A -> A -> bool   (* C's [x == y]; [x != y] is its negation *)
}.

Declare Scope fl_scope.
Delimit Scope fl_scope with fl.
Infix "+" := fadd : fl_scope.
Infix "-" := fsub : fl_scope.
Infix "*" := fmul : fl_scope.
Infix "/" := fdiv : fl_scope.
Notation "- x" := (fneg x) : fl_scope.
Infix "<?" := fltb : fl_scope.
Notation "x >? y" := (fltb y x) (only parsing) : fl_scope.
Infix "=?" := feqb : fl_scope.

(** An integer of the program converted to a scalar ([(float)n]). *)
Definition ofZ {A} `{Scalar A} (n : Z) : A := flit (inject_Z n).

(** ** IEEE-754 binary32 *)

Module Binary32.

Definition prec : Z := 24.
Definition emax : Z := 128.

Definition float : Type := spec_float.

(** The binary32 value nearest to the rational [q]: the correctly rounded
    quotient of numerator by denominator. *)
Definition of_Q (q : Q) : float :=
  match Qnum q with
  | Z0 => S754_zero false
  | Zpos n => SFdiv prec emax (S754_finite false n 0) (S754_finite false (Qden q) 0)
  | Zneg n => SFdiv prec emax (S754_finite true n 0) (S754_finite false (Qden q) 0)
  end.

#[global] Instance float_scalar : Scalar float := {|
  flit  := of_Q;
  fadd  := SFadd prec emax;
  fsub  := SFsub prec emax;
  fmul  := SFmul prec emax;
  fdiv  := SFdiv prec emax;
  fneg  := SFopp;
  fabs  := SFabs;
  fsqrt := SFsqrt prec emax;
  fltb  := SFltb;
  feqb  := SFeqb
|}.

End Binary32.

(** ** Exact arithmetic on the reals *)

Module Exact.

Definition Rltb (x y : R) : bool := if Rlt_dec x y then true else false.
Definition Reqb (x y : R) : bool := if Req_dec_T x y then true else false.

#[global] Instance real_scalar : Scalar R := {|
  flit  := Q2R;
  fadd  := Rplus;
  fsub  := Rminus;
  fmul  := Rmult;
  fdiv  := Rdiv;
  fneg  := Ropp;
  fabs  := Rabs;
  fsqrt := sqrt;
  fltb  := Rltb;
  feqb  := Reqb
|}.

End Exact.

(** ** The vector utilities of raymath.h that the program calls

    [raymath.h] belongs to raylib, not to this repository; the functions
    below follow its definitions.  The fields [x], [y] of a [Vector2] are
    [x2], [y2] here, and [x], [y], [z] of a [Vector3] are [vx], [vy], [vz]. *)

Record Vector2 (A : Type) := mkVector2 { x2 : A; y2 : A }.
Record Vector3 (A : Type) := mkVector3 { vx : A; vy : A; vz : A }.
Arguments mkVector2 {A} _ _.
Arguments x2 {A} _.
Arguments y2 {A} _.
Arguments mkVector3 {A} _ _ _.
Arguments vx {A} _.
Arguments vy {A} _.
Arguments vz {A} _.

Section Raymath.
Context {A : Type} `{Scalar A}.
Local Open Scope fl_scope.

Definition Vector2Subtract (v1 v2 : Vector2 A) : Vector2 A :=
    mkVector2 (x2 v1 - x2 v2) (y2 v1 - y2 v2).

Definition Vector2LengthSqr (v : Vector2 A) : A :=
    x2 v * x2 v + y2 v * y2 v.

Definition Vector3Add (v1 v2 : Vector3 A) : Vector3 A :=
    mkVector3 (vx v1 + vx v2) (vy v1 + vy v2) (vz v1 + vz v2).

Definition Vector3Subtract (v1 v2 : Vector3 A) : Vector3 A :=
    mkVector3 (vx v1 - vx v2) (vy v1 - vy v2) (vz v1 - vz v2).

Definition Vector3Scale (v : Vector3 A) (scalar : A) : Vector3 A :=
    mkVector3 (vx v * scalar) (vy v * scalar) (vz v * scalar).

Definition Vector3LengthSqr (v : Vector3 A) : A :=
    vx v * vx v + vy v * vy v + vz v * vz v.

Definition Vector3Length (v : Vector3 A) : A :=
    fsqrt (vx v * vx v + vy v * vy v + vz v * vz v).

  (** A vector of length zero is returned as it is. *)
Definition Vector3Normalize (v : Vector3 A) : Vector3 A :=
    let length := fsqrt (vx v * vx v + vy v * vy v + vz v * vz v) in
    if negb (length =? flit 0) then
      let ilength := flit 1 / length in
      mkVector3 (vx v * ilength) (vy v * ilength) (vz v * ilength)
    else v.

Definition Vector3Zero : Vector3 A := mkVector3 (flit 0) (flit 0) (flit 0).

End Raymath.

(** Expose the operations of the reals behind the scalar interface. *)
Ltac reals :=
  cbn [flit fadd fsub fmul fdiv fneg fabs fsqrt fltb feqb Exact.real_scalar
       vx vy vz x2 y2] in *.

(** ** The data model of [main.c] *)

(** The palette entries the simulation core assigns to bodies. *)
Inductive Color := GOLD | SKYBLUE | RED | WHITE.

Record Body (A : Type) := mkBody {
  position : Vector3 A;
  velocity : Vector3 A;
  mass     : A;
  radius   : A;
  color    : Color;
  isFixed  : bool
}.
Arguments mkBody {A} _ _ _ _ _ _.
Arguments position {A} _.
Arguments velocity {A} _.
Arguments mass {A} _.
Arguments radius {A} _.
Arguments color {A} _.
Arguments isFixed {A} _.

Record PlanetBuilder (A : Type) := mkBuilder {
  active   : bool;
  startPos : Vector3 A;
  endPos   : Vector3 A
}.
Arguments mkBuilder {A} _ _ _.
Arguments active {A} _.
Arguments startPos {A} _.
Arguments endPos {A} _.

(** raylib's [Ray], as [GetMouseRay] returns it. *)
Record Ray (A : Type) := mkRay {
  ray_position  : Vector3 A;
  ray_direction : Vector3 A
}.
Arguments mkRay {A} _ _.
Arguments ray_position {A} _.
Arguments ray_direction {A} _.

(** The state of the left mouse button in one frame, as raylib reports it
    through [IsMouseButtonPressed], [IsMouseButtonDown] and
    [IsMouseButtonReleased]. *)
Record MouseButton := mkMouse {
  pressed  : bool;
  down     : bool;
  released : bool
}.

Definition setVelocity {A} (b : Body A) (v : Vector3 A) : Body A :=
  mkBody (position b) v (mass b) (radius b) (color b) (isFixed b).

Definition setPosition {A} (b : Body A) (p : Vector3 A) : Body A :=
  mkBody p (velocity b) (mass b) (radius b) (color b) (isFixed b).

(** ** The program *)

Section Program.
Context {A : Type} `{Scalar A}.
Local Open Scope fl_scope.

(** *** Constants *)

Definition G : A := flit 500.
Definition BASE_DT : A := flit (5 # 10000).
Definition SUBSTEPS : nat := 8.

(** The start preset, and the registry a reset leaves. *)
Definition sun : Body A :=
  mkBody (mkVector3 (flit 0) (flit 0) (flit 0)) (mkVector3 (flit 0) (flit 0) (flit 0))
         (flit 5000) (flit 10) GOLD true.

Definition initialBodies : list (Body A) :=
  [ sun;
    mkBody (mkVector3 (flit 50) (flit 0) (flit 0)) (mkVector3 (flit 0) (flit 0) (flit 310))
           (flit 100) (flit 3) SKYBLUE false ].

Definition resetBodies : list (Body A) := [ sun ].

(** *** [GetSpacetimeCurve] *)

(** The body of the loop over the bodies. *)
Definition curveStep (x z : A) (y : A) (b : Body A) : A :=
  if mass b <? flit 50 then y
  else
  let distSq :=
    Vector2LengthSqr
      (Vector2Subtract (mkVector2 x z)
                       (mkVector2 (vx (position b)) (vz (position b)))) in
  let depression := (mass b * flit (1 # 2)) / (distSq + flit 60) in
  let depression := if depression >? flit 40 then flit 40 else depression in
  y - depression.

Definition GetSpacetimeCurve (x z : A) (bodies : list (Body A)) : A :=
  fold_left (curveStep x z) bodies (- flit 15).

(** *** [GetMouseOnPlane], as a function of the ray [GetMouseRay] returned *)

Definition GetMouseOnPlane (ray : Ray A) : Vector3 A :=
  if fabs (vy (ray_direction ray)) <? flit (1 # 1000) then Vector3Zero
  else
    let t := - vy (ray_position ray) / vy (ray_direction ray) in
    if t <? flit 0 then Vector3Zero
    else Vector3Add (ray_position ray) (Vector3Scale (ray_direction ray) t).

(** *** The creation logic of one frame *)

Definition touchingUI (mouseY screenH : Z) : bool :=
  (screenH - 100 <? mouseY)%Z || (mouseY <? 80)%Z.

Definition newBody (builder : PlanetBuilder A) (diff : Vector3 A) (newPlanetMass : A)
  : Body A :=
  let velocity := Vector3Scale diff (flit 5) in
  let radius := fsqrt newPlanetMass / flit 4 in
  let radius := if radius <? flit 1 then flit 1 else radius in
  mkBody (startPos builder) velocity newPlanetMass radius
         (if newPlanetMass >? flit 1000 then RED else WHITE) false.

Definition builderUpdate (isCreateMode touching : bool) (mouse : MouseButton)
    (mousePos3D : Vector3 A) (newPlanetMass : A)
    (st : PlanetBuilder A * list (Body A)) : PlanetBuilder A * list (Body A) :=
  let '(builder, bodies) := st in
  if isCreateMode && negb touching then
    let builder :=
      if pressed mouse then mkBuilder true mousePos3D (endPos builder) else builder in
    let builder :=
      if down mouse then mkBuilder (active builder) (startPos builder) mousePos3D
      else builder in
    if released mouse && active builder then
      let diff := Vector3Subtract (endPos builder) (startPos builder) in
      let bodies :=
        if Vector3Length diff >? flit 2
        then bodies ++ [newBody builder diff newPlanetMass]
        else bodies in
      (mkBuilder false (startPos builder) (endPos builder), bodies)
    else (builder, bodies)
  else (builder, bodies).

(** *** The mass slider *)

Definition sliderUpdate (buttonDown : bool) (mouseX mouseY screenW : Z)
    (newPlanetMass : A) : A :=
  if buttonDown && (mouseY <? 60)%Z && (120 <? mouseX)%Z then
    let clickPct := (ofZ mouseX - flit 120) / ofZ (screenW - 140) in
    flit 10 + clickPct * flit 2000
  else newPlanetMass.

(** *** Physics *)

(** What one iteration of the inner loop adds to [totalForce]. *)
Definition pairForce (bi bj : Body A) : Vector3 A :=
  let diff := Vector3Subtract (position bj) (position bi) in
  let distSq := Vector3LengthSqr diff in
  let dist := fsqrt distSq in
  let dist := if dist <? radius bi + radius bj then radius bi + radius bj else dist in
  let force := (G * mass bi * mass bj) / distSq in
  Vector3Scale (Vector3Normalize diff) force.

(** The same iteration with the line that clamps [dist] taken out. *)
Definition pairForce_unclamped (bi bj : Body A) : Vector3 A :=
  let diff := Vector3Subtract (position bj) (position bi) in
  let distSq := Vector3LengthSqr diff in
  let dist := fsqrt distSq in
  let force := (G * mass bi * mass bj) / distSq in
  Vector3Scale (Vector3Normalize diff) force.

(** The force magnitude of that iteration (the local [force]). *)
Definition forceMagnitude (bi bj : Body A) : A :=
  let diff := Vector3Subtract (position bj) (position bi) in
  let distSq := Vector3LengthSqr diff in
  (G * mass bi * mass bj) / distSq.

Section Loops.
(** The loops of the physics block, over the body of the inner loop. *)
Variable contribution : Body A -> Body A -> Vector3 A.

(** One iteration of the inner loop over [j], for body [i]. *)
Definition forceStep (bodies : list (Body A)) (i : nat) (bi : Body A)
    (totalForce : Vector3 A) (j : nat) : Vector3 A :=
  if Nat.eqb i j then totalForce
  else match bodies !! j with
       | Some bj => Vector3Add totalForce (contribution bi bj)
       | None => totalForce
       end.

(** The inner loop. *)
Definition totalForceWith (bodies : list (Body A)) (i : nat) (bi : Body A)
  : Vector3 A :=
  fold_left (forceStep bodies i bi) (seq 0 (length bodies)) Vector3Zero.

(** One iteration of the loop over [i]: the velocity of [bodies[i]] is
    updated in place. *)
Definition updateVelocityWith (dt : A) (bodies : list (Body A)) (i : nat)
  : list (Body A) :=
  match bodies !! i with
  | None => bodies
  | Some bi =>
      if isFixed bi then bodies
      else
        let totalForce := totalForceWith bodies i bi in
        <[ i := setVelocity bi
                  (Vector3Add (velocity bi)
                     (Vector3Scale (Vector3Scale totalForce (flit 1 / mass bi)) dt)) ]>
          bodies
  end.

Definition velocityPassWith (dt : A) (bodies : list (Body A)) : list (Body A) :=
  fold_left (updateVelocityWith dt) (seq 0 (length bodies)) bodies.

(** The body of the second loop of a substep. *)
Definition moveBody (dt : A) (b : Body A) : Body A :=
  if negb (isFixed b)
  then setPosition b (Vector3Add (position b) (Vector3Scale (velocity b) dt))
  else b.

Definition positionPass (dt : A) (bodies : list (Body A)) : list (Body A) :=
  moveBody dt <$> bodies.

Definition substepWith (dt : A) (bodies : list (Body A)) : list (Body A) :=
  positionPass dt (velocityPassWith dt bodies).

Definition physicsWith (isPaused : bool) (timeSpeed : A) (bodies : list (Body A))
  : list (Body A) :=
  if negb isPaused then
    let dt := BASE_DT * timeSpeed in
    Nat.iter SUBSTEPS (substepWith dt) bodies
  else bodies.

(** Reference description of the velocity update of body [i]: the force is
    accumulated over the bodies as they are when the substep starts. *)
Definition accelerateWith (dt : A) (bodies : list (Body A)) (i : nat) (b : Body A)
  : Body A :=
  if isFixed b then b
  else setVelocity b
         (Vector3Add (velocity b)
            (Vector3Scale
               (Vector3Scale (totalForceWith bodies i b) (flit 1 / mass b)) dt)).

End Loops.

Definition totalForce := totalForceWith pairForce.
Definition updateVelocity := updateVelocityWith pairForce.
Definition substep := substepWith pairForce.
Definition physics := physicsWith pairForce.
Definition accelerate := accelerateWith pairForce.

Definition substep_unclamped := substepWith pairForce_unclamped.
Definition physics_unclamped := physicsWith pairForce_unclamped.

(** *** Notions used in the statements *)

(** A body with its velocity forgotten. *)
Definition still (b : Body A) : Body A := setVelocity b Vector3Zero.

(** Total momentum: the sum over all bodies of mass * velocity. *)
Definition momentum (bodies : list (Body A)) : Vector3 A :=
  fold_left (fun p b => Vector3Add p (Vector3Scale (velocity b) (mass b)))
            bodies Vector3Zero.

(** The two cases in which [GetMouseOnPlane] gives up: the ray is (nearly)
    parallel to the plane, or the plane lies behind it. *)
Definition degenerate (ray : Ray A) : bool :=
  (fabs (vy (ray_direction ray)) <? flit (1 # 1000))
  || (- vy (ray_position ray) / vy (ray_direction ray) <? flit 0).

End Program.

(** ** Reference notions over the reals *)

Module ExactRef.
Import Exact.
Local Open Scope R_scope.

Definition vneg (v : Vector3 R) : Vector3 R :=
  mkVector3 (- vx v) (- vy v) (- vz v).

(** The sum of a list of vectors. *)
Definition vsum (l : list (Vector3 R)) : Vector3 R :=
  fold_right Vector3Add Vector3Zero l.

(** The depression one body causes at [(x, z)], as the specification words
    it: [(mass * 0.5) / (planar squared distance + 60)], at most 40. *)
Definition depression (x z : R) (b : Body R) : R :=
  Rmin 40
    ((mass b * 0.5) /
     ((x - vx (position b)) * (x - vx (position b))
      + (z - vz (position b)) * (z - vz (position b)) + 60)).

Definition heavyEnough (b : Body R) : bool :=
  if Rle_dec 50 (mass b) then true else false.

(** The curvature as the specification words it: -15 minus the depression
    of every body of mass at least 50. *)
Definition curveSpec (x z : R) (bodies : list (Body R)) : R :=
  -15 - fold_right Rplus 0 (map (depression x z) (List.filter heavyEnough bodies)).

(** The force body [i] receives from body [j], by index. *)
Definition pull (bodies : list (Body R)) (i j : nat) : Vector3 R :=
  match bodies !! i, bodies !! j with
  | Some bi, Some bj => if Nat.eqb i j then Vector3Zero else pairForce bi bj
  | _, _ => Vector3Zero
  end.

End ExactRef.
Import ExactRef.

(** ** Concrete inputs, in binary32 *)

Module Inputs.
Import Binary32.

Definition origin : Vector3 float := mkVector3 (flit 0) (flit 0) (flit 0).

(** A ray parallel to the plane [y = 0]. *)
Definition parallelRay : Ray float :=
  mkRay (mkVector3 (flit 0) (flit 150) (flit 120))
        (mkVector3 (flit 1) (flit 0) (flit 0)).

(** A ray that hits the plane at [(10, 0, 0)]. *)
Definition hittingRay : Ray float :=
  mkRay (mkVector3 (flit 10) (flit 150) (flit 0))
        (mkVector3 (flit 0) (flit (-1)) (flit 0)).

Definition idleBuilder : PlanetBuilder float := mkBuilder false origin origin.

Definition nan3 : Vector3 float := mkVector3 S754_nan S754_nan S754_nan.

(** A body of mass 200 thrown from the origin, where the sun sits. *)
Definition onTheSun : Body float :=
  mkBody origin (mkVector3 (flit 50) (flit 0) (flit 0))
         (flit 200) (fsqrt (flit 200) / flit 4)%fl WHITE false.

Definition coincident : list (Body float) := [ sun; onTheSun ].

(** The second body of the start preset. *)
Definition presetPlanet : Body float :=
  mkBody (mkVector3 (flit 50) (flit 0) (flit 0))
         (mkVector3 (flit 0) (flit 0) (flit 310)) (flit 100) (flit 3) SKYBLUE false.

(** A gesture started at the origin and held at [(10, 0, 0)]. *)
Definition fromOrigin : PlanetBuilder float :=
  mkBuilder true origin (mkVector3 (flit 10) (flit 0) (flit 0)).

Definition press : MouseButton := mkMouse true true false.
Definition hold : MouseButton := mkMouse false true false.
Definition release : MouseButton := mkMouse false false true.

(** Three frames in create mode on the registry a reset leaves: a press
    while the mouse ray is parallel to the plane, a drag to a proper point,
    the release. *)
Definition afterPress : PlanetBuilder float * list (Body float) :=
  builderUpdate true false press (GetMouseOnPlane parallelRay) (flit 200)
    (idleBuilder, resetBodies).
Definition afterHold : PlanetBuilder float * list (Body float) :=
  builderUpdate true false hold (GetMouseOnPlane hittingRay) (flit 200) afterPress.
Definition afterRelease : PlanetBuilder float * list (Body float) :=
  builderUpdate true false release (GetMouseOnPlane hittingRay) (flit 200) afterHold.

(** Over the reals: two free bodies, and a gesture dragged from the origin
    to [(3, 0, 0)]. *)
Definition freePair : list (Body R) :=
  [ mkBody (mkVector3 0 0 0) (mkVector3 0 0 0) 5000 10 GOLD false;
    mkBody (mkVector3 50 0 0) (mkVector3 0 0 310) 100 3 SKYBLUE false ]%R.

Definition dragged : PlanetBuilder R :=
  mkBuilder true (mkVector3 0 0 0)%R (mkVector3 3 0 0)%R.

End Inputs.

(** ** The rest of [main]: the session state and one frame of the loop *)

Module Main.

Inductive CameraProjection := CAMERA_PERSPECTIVE | CAMERA_ORTHOGRAPHIC.

(** raylib's [Camera3D] and [Rectangle]. *)
Record Camera3D (A : Type) := mkCamera {
  cam_position : Vector3 A;
  cam_target   : Vector3 A;
  cam_up       : Vector3 A;
  fovy         : A;
  projection   : CameraProjection
}.
Arguments mkCamera {A} _ _ _ _ _.
Arguments cam_position {A} _.
Arguments cam_target {A} _.
Arguments cam_up {A} _.
Arguments fovy {A} _.
Arguments projection {A} _.

Record Rectangle (A : Type) := mkRectangle {
  rec_x : A; rec_y : A; rec_width : A; rec_height : A
}.
Arguments mkRectangle {A} _ _ _ _.
Arguments rec_x {A} _.
Arguments rec_y {A} _.
Arguments rec_width {A} _.
Arguments rec_height {A} _.

(** The local variables of [main] that live across frames. *)
Record State (A : Type) := mkState {
  camera        : Camera3D A;
  bodies        : list (Body A);
  is2D          : bool;
  isPaused      : bool;
  isCreateMode  : bool;
  timeSpeed     : A;
  newPlanetMass : A;
  cameraTarget  : Z;
  builder       : PlanetBuilder A
}.
Arguments mkState {A} _ _ _ _ _ _ _ _ _.
Arguments camera {A} _.
Arguments bodies {A} _.
Arguments is2D {A} _.
Arguments isPaused {A} _.
Arguments isCreateMode {A} _.
Arguments timeSpeed {A} _.
Arguments newPlanetMass {A} _.
Arguments cameraTarget {A} _.
Arguments builder {A} _.

(** What raylib reports during one frame.  Its values do not change within
    a frame.  [mouseRay] stands for [GetMouseRay(GetMousePosition(), .)] and
    [updateCamera] for [UpdateCamera(., CAMERA_ORBITAL)], both of raylib.
    The [int]s of the program are integers here: screen coordinates and
    body counts stay far from the limits of [int]. *)
Record Input (A : Type) := mkInput {
  screenW       : Z;
  screenH       : Z;
  mouseX        : Z;
  mouseY        : Z;
  mousePosition : Vector2 A;
  button        : MouseButton;
  mouseRay      : Camera3D A -> Ray A;
  updateCamera  : Camera3D A -> Camera3D A
}.
Arguments mkInput {A} _ _ _ _ _ _ _ _.
Arguments screenW {A} _.
Arguments screenH {A} _.
Arguments mouseX {A} _.
Arguments mouseY {A} _.
Arguments mousePosition {A} _.
Arguments button {A} _.
Arguments mouseRay {A} _ _.
Arguments updateCamera {A} _ _.

Section Frame.
Context {A : Type} `{Scalar A}.
Local Open Scope fl_scope.

(** C's [x >= y]. *)
Definition fgeb (x y : A) : bool := (y <? x) || (x =? y).

(** raymath's [Vector3Lerp] and [Vector3DotProduct], raylib's
    [CheckCollisionPointRec]. *)
Definition Vector3Lerp (v1 v2 : Vector3 A) (amount : A) : Vector3 A :=
  mkVector3 (vx v1 + amount * (vx v2 - vx v1))
            (vy v1 + amount * (vy v2 - vy v1))
            (vz v1 + amount * (vz v2 - vz v1)).

Definition Vector3DotProduct (v1 v2 : Vector3 A) : A :=
  vx v1 * vx v2 + vy v1 * vy v2 + vz v1 * vz v2.

Definition CheckCollisionPointRec (point : Vector2 A) (rec : Rectangle A) : bool :=
  fgeb (x2 point) (rec_x rec)
  && (x2 point <? rec_x rec + rec_width rec)
  && fgeb (y2 point) (rec_y rec)
  && (y2 point <? rec_y rec + rec_height rec).

(** [GuiButton], without the drawing: whether the button was hit. *)
Definition GuiButton (inp : Input A) (rect : Rectangle A) : bool :=
  let pressed := false in
  if released (button inp) then
    let touch := mousePosition inp in
    if CheckCollisionPointRec touch rect then true else pressed
  else pressed.

(** The state before the first frame. *)
Definition initialState : State A :=
  mkState
    (mkCamera (mkVector3 (flit 0) (flit 150) (flit 120))
              (mkVector3 (flit 0) (flit 0) (flit 0))
              (mkVector3 (flit 0) (flit 1) (flit 0))
              (flit 45) CAMERA_PERSPECTIVE)
    initialBodies false false false (flit 1) (flit 200) (-1)
    (mkBuilder false (mkVector3 (flit 0) (flit 0) (flit 0))
                     (mkVector3 (flit 0) (flit 0) (flit 0))).

Definition setCameraTarget (c : Camera3D A) (t : Vector3 A) : Camera3D A :=
  mkCamera (cam_position c) t (cam_up c) (fovy c) (projection c).

(** The camera logic at the top of the loop.  [bodies[cameraTarget]] with
    an index outside the vector is undefined behaviour: [None]. *)
Definition cameraLogic (s : State A) : option (State A) :=
  if negb (cameraTarget s =? -1)%Z
     && (cameraTarget s <? Z.of_nat (length (bodies s)))%Z
  then
    if (cameraTarget s <? 0)%Z then None
    else
      match bodies s !! Z.to_nat (cameraTarget s) with
      | Some b =>
          Some (mkState
                  (setCameraTarget (camera s)
                     (Vector3Lerp (cam_target (camera s)) (position b) (flit (1 # 10))))
                  (bodies s) (is2D s) (isPaused s) (isCreateMode s) (timeSpeed s)
                  (newPlanetMass s) (cameraTarget s) (builder s))
      | None => None
      end
  else
    Some (mkState
            (setCameraTarget (camera s)
               (Vector3Lerp (cam_target (camera s)) Vector3Zero (flit (1 # 10))))
            (bodies s) (is2D s) (isPaused s) (isCreateMode s) (timeSpeed s)
            (newPlanetMass s) (-1) (builder s)).

(** The orbiting camera. *)
Definition orbit (inp : Input A) (s : State A) : State A :=
  let touching := touchingUI (mouseY inp) (screenH inp) in
  if negb (is2D s) && negb (isCreateMode s) && negb touching then
    mkState (updateCamera inp (camera s)) (bodies s) (is2D s) (isPaused s)
            (isCreateMode s) (timeSpeed s) (newPlanetMass s) (cameraTarget s)
            (builder s)
  else s.

(** The creation logic. *)
Definition creation (inp : Input A) (s : State A) : State A :=
  let touching := touchingUI (mouseY inp) (screenH inp) in
  let mousePos3D := GetMouseOnPlane (mouseRay inp (camera s)) in
  let st := builderUpdate (isCreateMode s) touching (button inp) mousePos3D
              (newPlanetMass s) (builder s, bodies s) in
  mkState (camera s) (snd st) (is2D s) (isPaused s) (isCreateMode s) (timeSpeed s)
          (newPlanetMass s) (cameraTarget s) (fst st).

(** The physics block. *)
Definition simulate (s : State A) : State A :=
  mkState (camera s) (physics (isPaused s) (timeSpeed s) (bodies s)) (is2D s)
          (isPaused s) (isCreateMode s) (timeSpeed s) (newPlanetMass s)
          (cameraTarget s) (builder s).

(** The fraction of the mass bar that is drawn filled. *)
Definition massPercent (newPlanetMass : A) : A :=
  (newPlanetMass - flit 10) / (flit 2000 - flit 10).

(** The mass slider. *)
Definition slider (inp : Input A) (s : State A) : State A :=
  mkState (camera s) (bodies s) (is2D s) (isPaused s) (isCreateMode s) (timeSpeed s)
          (sliderUpdate (down (button inp)) (mouseX inp) (mouseY inp) (screenW inp)
                        (newPlanetMass s))
          (cameraTarget s) (builder s).

(** The geometry of the bottom panel. *)
Definition btnH : Z := 80.
Definition btnY (inp : Input A) : Z := screenH inp - btnH - 10.
Definition btnW (inp : Input A) : Z := Z.quot (screenW inp) 5.

(** The rectangle of the [k]-th button of the row, [k] from 0 to 4. *)
Definition rowButton (inp : Input A) (k : Z) : Rectangle A :=
  mkRectangle (ofZ (btnW inp) * ofZ k) (ofZ (btnY inp)) (ofZ (btnW inp) - flit 5)
              (ofZ btnH).

Definition minusButton (inp : Input A) : Rectangle A :=
  mkRectangle (ofZ (screenW inp) - flit 120) (ofZ (btnY inp) - flit 50)
              (flit 50) (flit 40).

Definition plusButton (inp : Input A) : Rectangle A :=
  mkRectangle (ofZ (screenW inp) - flit 60) (ofZ (btnY inp) - flit 50)
              (flit 50) (flit 40).

(** Button 1: view or create. *)
Definition modeButton (inp : Input A) (s : State A) : State A :=
  if GuiButton inp (rowButton inp 0) then
    mkState (camera s) (bodies s) (is2D s) (isPaused s) (negb (isCreateMode s))
            (timeSpeed s) (newPlanetMass s) (cameraTarget s) (builder s)
  else s.

(** Button 2: 2D or 3D. *)
Definition viewButton (inp : Input A) (s : State A) : State A :=
  if GuiButton inp (rowButton inp 1) then
    let is2D' := negb (is2D s) in
    let camera' :=
      if is2D' then
        mkCamera (mkVector3 (flit 0) (flit 200) (flit 0)) (cam_target (camera s))
                 (cam_up (camera s)) (flit 100) CAMERA_ORTHOGRAPHIC
      else
        mkCamera (mkVector3 (flit 0) (flit 150) (flit 120)) (cam_target (camera s))
                 (cam_up (camera s)) (flit 45) CAMERA_PERSPECTIVE in
    mkState camera' (bodies s) is2D' (isPaused s) (isCreateMode s) (timeSpeed s)
            (newPlanetMass s) (cameraTarget s) (builder s)
  else s.

(** Button 3: pause. *)
Definition pauseButton (inp : Input A) (s : State A) : State A :=
  if GuiButton inp (rowButton inp 2) then
    mkState (camera s) (bodies s) (is2D s) (negb (isPaused s)) (isCreateMode s)
            (timeSpeed s) (newPlanetMass s) (cameraTarget s) (builder s)
  else s.

(** Button 4: reset. *)
Definition resetButton (inp : Input A) (s : State A) : State A :=
  if GuiButton inp (rowButton inp 3) then
    mkState (camera s) resetBodies (is2D s) (isPaused s) (isCreateMode s)
            (timeSpeed s) (newPlanetMass s) (-1) (builder s)
  else s.

(** What a hit of button 5 does to the camera target. *)
Definition nextTarget (cameraTarget : Z) (size : nat) : Z :=
  let cameraTarget := (cameraTarget + 1)%Z in
  if (Z.of_nat size <=? cameraTarget)%Z then (-1)%Z else cameraTarget.

(** Button 5: camera target. *)
Definition camButton (inp : Input A) (s : State A) : State A :=
  if GuiButton inp (rowButton inp 4) then
    mkState (camera s) (bodies s) (is2D s) (isPaused s) (isCreateMode s)
            (timeSpeed s) (newPlanetMass s)
            (nextTarget (cameraTarget s) (length (bodies s))) (builder s)
  else s.

(** The two speed buttons. *)
Definition slower (timeSpeed : A) : A := timeSpeed * flit (8 # 10).
Definition faster (timeSpeed : A) : A := timeSpeed * flit (12 # 10).

Definition speedButtons (inp : Input A) (s : State A) : State A :=
  let timeSpeed1 :=
    if GuiButton inp (minusButton inp) then slower (timeSpeed s) else timeSpeed s in
  let timeSpeed2 :=
    if GuiButton inp (plusButton inp) then faster timeSpeed1 else timeSpeed1 in
  mkState (camera s) (bodies s) (is2D s) (isPaused s) (isCreateMode s)
          timeSpeed2 (newPlanetMass s) (cameraTarget s) (builder s).

(** What one iteration of the main loop does to the state (drawing left
    out). *)
Definition frame (inp : Input A) (s : State A) : option (State A) :=
  match cameraLogic s with
  | None => None
  | Some s =>
      let s := orbit inp s in
      let s := creation inp s in
      let s := simulate s in
      let s := slider inp s in
      let s := modeButton inp s in
      let s := viewButton inp s in
      let s := pauseButton inp s in
      let s := resetButton inp s in
      let s := camButton inp s in
      Some (speedButtons inp s)
  end.

(** The loop, over the inputs of the successive frames. *)
Fixpoint run (inputs : list (Input A)) (s : State A) : option (State A) :=
  match inputs with
  | [] => Some s
  | inp :: inputs =>
      match frame inp s with
      | None => None
      | Some s => run inputs s
      end
  end.

(** What every reachable state satisfies: the sun is body 0, every other
    body is free, and the camera target is -1 or the index of a body. *)
Definition wellFormed (s : State A) : Prop :=
  bodies s !! 0%nat = Some sun
  /\ Forall (fun b => isFixed b = false) (drop 1 (bodies s))
  /\ (-1 <= cameraTarget s < Z.of_nat (length (bodies s)))%Z.

End Frame.

End Main.

(** ** Concrete frames *)

Module FrameInputs.
Import Binary32 Main.

(** A frame 1080 by 1920 with the pointer at rest in the middle. *)
Definition idle : Input float :=
  mkInput 1080 1920 540 960 (mkVector2 (flit 540) (flit 960))
          (mkMouse false false false)
          (fun _ => Inputs.hittingRay) (fun c => c).

(** The state after one such frame. *)
Definition afterIdle : State float :=
  match frame idle initialState with
  | Some s => s
  | None => initialState
  end.

(** The initial state with the pause flag set, and the state one idle frame
    later. *)
Definition paused : State float :=
  mkState (camera initialState) (bodies initialState) false true false
          (flit 1) (flit 200) (-1) (builder initialState).

Definition afterPausedIdle : State float :=
  match frame idle paused with
  | Some s => s
  | None => paused
  end.

(** Over the reals: the same screen with a release on the minus button, at
    [(1000, 1790)]. *)
Definition releaseOnMinus : Input R :=
  mkInput 1080 1920 1000 1790 (mkVector2 1000 1790)%R
          (mkMouse false false true)
          (fun _ => mkRay (mkVector3 0 1 0) (mkVector3 0 0 0))%R (fun c => c).

(** The same screen with a release on the first button of the row, at
    [(100, 1850)]. *)
Definition releaseOnMode : Input R :=
  mkInput 1080 1920 100 1850 (mkVector2 100 1850)%R
          (mkMouse false false true)
          (fun _ => mkRay (mkVector3 0 1 0) (mkVector3 0 0 0))%R (fun c => c).

End FrameInputs.

(** ** Facts about the loops, for every scalar type *)

Section LoopFacts.
Context {A : Type} `{Scalar A}.

Lemma fold_left_pointwise {X Y : Type} (f g : X -> Y -> X) (l : list Y) (a : X) :
  (forall x y, f x y = g x y) -> fold_left f l a = fold_left g l a.
Proof.
  intros Hfg. revert a.
  induction l as [|y l IH]; intros a; simpl; [reflexivity|].
  rewrite Hfg. apply IH.
Qed.

Lemma imap_keep (l : list (Body A)) : imap (fun _ b => b) l = l.
Proof.
  apply list_eq. intros i. rewrite list_lookup_imap.
  destruct (l !! i); reflexivity.
Qed.

Section WithContribution.
Variable contribution : Body A -> Body A -> Vector3 A.

Lemma totalForceWith_ext (contribution' : Body A -> Body A -> Vector3 A)
    (bodies : list (Body A)) (i : nat) (b : Body A) :
  (forall bi bj, contribution bi bj = contribution' bi bj) ->
  totalForceWith contribution bodies i b = totalForceWith contribution' bodies i b.
Proof.
  intros Hc. unfold totalForceWith. apply fold_left_pointwise.
  intros acc j. unfold forceStep.
  destruct (Nat.eqb i j); [reflexivity|].
  destruct (bodies !! j); [rewrite Hc|]; reflexivity.
Qed.

Lemma length_updateVelocityWith (dt : A) (bodies : list (Body A)) (i : nat) :
  length (updateVelocityWith contribution dt bodies i) = length bodies.
Proof.
  unfold updateVelocityWith.
  destruct (bodies !! i) as [bi|]; [|reflexivity].
  destruct (isFixed bi); [reflexivity|].
  apply length_insert.
Qed.

(** The force on a body reads positions, masses and radii only. *)
Hypothesis contribution_velocity :
  forall bi bj v, contribution bi (setVelocity bj v) = contribution bi bj.

Lemma totalForceWith_still (bodies : list (Body A)) (i : nat) (b : Body A) :
  totalForceWith contribution (still <$> bodies) i b
  = totalForceWith contribution bodies i b.
Proof.
  unfold totalForceWith. rewrite length_fmap. apply fold_left_pointwise.
  intros acc j. unfold forceStep.
  destruct (Nat.eqb i j); [reflexivity|].
  rewrite list_lookup_fmap.
  destruct (bodies !! j) as [bj|]; simpl; [|reflexivity].
  unfold still. rewrite contribution_velocity. reflexivity.
Qed.

Lemma totalForceWith_same_still (bodies bodies' : list (Body A)) (i : nat) (b : Body A) :
  still <$> bodies' = still <$> bodies ->
  totalForceWith contribution bodies' i b = totalForceWith contribution bodies i b.
Proof.
  intros Heq.
  rewrite <- (totalForceWith_still bodies'), Heq.
  apply totalForceWith_still.
Qed.

Lemma still_accelerateWith (dt : A) (bodies : list (Body A)) (i : nat) (b : Body A) :
  still (accelerateWith contribution dt bodies i b) = still b.
Proof. unfold accelerateWith. destruct (isFixed b); reflexivity. Qed.

(** After [k] iterations of the loop over [i], exactly the first [k] bodies
    carry their new velocity. *)
Lemma velocityPassWith_prefix (dt : A) (bodies : list (Body A)) (k : nat) :
  (k <= length bodies)%nat ->
  fold_left (updateVelocityWith contribution dt) (seq 0 k) bodies
  = imap (fun i b => if (i <? k)%nat
                     then accelerateWith contribution dt bodies i b else b) bodies.
Proof.
  induction k as [|k IH]; intros Hk.
  - simpl. symmetry. apply imap_keep.
  - rewrite seq_S, fold_left_app, IH by lia. simpl.
    set (L := imap _ bodies).
    assert (HL : forall i, L !! i =
              (fun b => if (i <? k)%nat
                        then accelerateWith contribution dt bodies i b else b)
                <$> bodies !! i)
      by (intros i; unfold L; apply list_lookup_imap).
    assert (Hstill : still <$> L = still <$> bodies).
    { apply list_eq. intros i. rewrite !list_lookup_fmap, HL.
      destruct (bodies !! i) as [b|]; simpl; [|reflexivity].
      destruct (i <? k)%nat; [rewrite still_accelerateWith|]; reflexivity. }
    destruct (lookup_lt_is_Some_2 bodies k) as [bk Hbk]; [lia|].
    assert (HLk : L !! k = Some bk).
    { rewrite HL, Hbk. simpl. rewrite Nat.ltb_irrefl. reflexivity. }
    unfold updateVelocityWith. rewrite HLk.
    apply list_eq. intros i. rewrite list_lookup_imap.
    destruct (decide (i = k)) as [->|Hik].
    + rewrite Hbk. simpl.
      replace (k <? S k)%nat with true by (symmetry; apply Nat.ltb_lt; lia).
      unfold accelerateWith.
      destruct (isFixed bk); [exact HLk|].
      rewrite list_lookup_insert_eq
        by (unfold L; rewrite length_imap; lia).
      rewrite (totalForceWith_same_still bodies L) by exact Hstill.
      reflexivity.
    + assert (Hlt : (i <? S k)%nat = (i <? k)%nat).
      { destruct (i <? k)%nat eqn:E.
        - apply Nat.ltb_lt in E. apply Nat.ltb_lt. lia.
        - apply Nat.ltb_ge in E. apply Nat.ltb_ge. lia. }
      rewrite Hlt.
      destruct (isFixed bk); [apply HL|].
      rewrite list_lookup_insert_ne by congruence. apply HL.
Qed.

(** The in-place loop computes every new velocity from the state at the
    start of the substep. *)
Lemma velocityPassWith_imap (dt : A) (bodies : list (Body A)) :
  velocityPassWith contribution dt bodies
  = imap (accelerateWith contribution dt bodies) bodies.
Proof.
  unfold velocityPassWith. rewrite velocityPassWith_prefix by lia.
  apply imap_ext. intros i b Hib.
  apply lookup_lt_Some in Hib.
  replace (i <? length bodies)%nat with true
    by (symmetry; apply Nat.ltb_lt; lia).
  reflexivity.
Qed.

Lemma substepWith_lookup (dt : A) (bodies : list (Body A)) (i : nat) :
  substepWith contribution dt bodies !! i
  = (fun b => moveBody dt (accelerateWith contribution dt bodies i b))
      <$> bodies !! i.
Proof.
  unfold substepWith, positionPass.
  rewrite list_lookup_fmap, velocityPassWith_imap, list_lookup_imap.
  destruct (bodies !! i); reflexivity.
Qed.

Lemma length_substepWith (dt : A) (bodies : list (Body A)) :
  length (substepWith contribution dt bodies) = length bodies.
Proof.
  unfold substepWith, positionPass.
  rewrite length_fmap, velocityPassWith_imap. apply length_imap.
Qed.

Lemma substepWith_fixed (dt : A) (bodies : list (Body A)) (i : nat) (b : Body A) :
  bodies !! i = Some b -> isFixed b = true ->
  substepWith contribution dt bodies !! i = Some b.
Proof.
  intros Hb Hfix. rewrite substepWith_lookup, Hb. simpl.
  unfold accelerateWith, moveBody. rewrite Hfix. simpl. rewrite Hfix. reflexivity.
Qed.

End WithContribution.

Lemma pairForce_velocity (bi bj : Body A) (v : Vector3 A) :
  pairForce bi (setVelocity bj v) = pairForce bi bj.
Proof. reflexivity. Qed.

End LoopFacts.

(** ** The integrator: order of the passes, fixed bodies, the clamp *)

Section Integrator.
Context {A : Type} `{Scalar A}.

Lemma substep_lookup (dt : A) (bodies : list (Body A)) (i : nat) :
  substep dt bodies !! i
  = (fun b => moveBody dt (accelerate dt bodies i b)) <$> bodies !! i.
Proof. apply substepWith_lookup, pairForce_velocity. Qed.

Lemma length_substep (dt : A) (bodies : list (Body A)) :
  length (substep dt bodies) = length bodies.
Proof. apply length_substepWith, pairForce_velocity. Qed.

Lemma iter_substep_fixed (dt : A) (n : nat) (bodies : list (Body A))
    (i : nat) (b : Body A) :
  bodies !! i = Some b -> isFixed b = true ->
  Nat.iter n (substep dt) bodies !! i = Some b.
Proof.
  intros Hb Hfix. induction n as [|n IH]; simpl; [exact Hb|].
  apply substepWith_fixed; auto using pairForce_velocity.
Qed.

(** The inner loop, cut at index [i]: whatever [bodies[i]] is, its pull is
    added to the running total of every other body. *)
Lemma totalForce_split (bodies : list (Body A)) (i k : nat) (b bk : Body A) :
  bodies !! i = Some b -> k <> i ->
  totalForce bodies k bk
  = fold_left (forceStep pairForce bodies k bk)
      (seq (S i) (length bodies - S i))
      (Vector3Add
         (fold_left (forceStep pairForce bodies k bk) (seq 0 i) Vector3Zero)
         (pairForce bk b)).
Proof.
  intros Hb Hki. pose proof (lookup_lt_Some _ _ _ Hb) as Hlt.
  unfold totalForce, totalForceWith.
  replace (length bodies) with (i + S (length bodies - S i))%nat at 1 by lia.
  rewrite seq_app, fold_left_app. cbn [seq fold_left Nat.add].
  f_equal. unfold forceStep at 1.
  replace (Nat.eqb k i) with false by (symmetry; apply Nat.eqb_neq; exact Hki).
  rewrite Hb. reflexivity.
Qed.

(** The inner loop never reads the fixed flag of the bodies it sums over. *)
Lemma totalForce_flag (bodies : list (Body A)) (i k : nat) (b bk : Body A) (f : bool) :
  bodies !! i = Some b ->
  totalForce
    (<[ i := mkBody (position b) (velocity b) (mass b) (radius b) (color b) f ]> bodies)
    k bk
  = totalForce bodies k bk.
Proof.
  intros Hb. pose proof (lookup_lt_Some _ _ _ Hb) as Hlt.
  unfold totalForce, totalForceWith. rewrite length_insert.
  apply fold_left_pointwise. intros acc j. unfold forceStep.
  destruct (Nat.eqb k j); [reflexivity|].
  destruct (decide (i = j)) as [<-|Hij].
  - rewrite list_lookup_insert_eq by exact Hlt. rewrite Hb. reflexivity.
  - rewrite list_lookup_insert_ne by exact Hij. reflexivity.
Qed.

(** The new velocity and position of a free body, from the force on it. *)
Lemma substep_free_lookup (dt : A) (bodies : list (Body A)) (k : nat) (bk : Body A) :
  bodies !! k = Some bk -> isFixed bk = false ->
  substep dt bodies !! k
  = Some (moveBody dt
            (setVelocity bk
               (Vector3Add (velocity bk)
                  (Vector3Scale
                     (Vector3Scale (totalForce bodies k bk) (fdiv (flit 1) (mass bk)))
                     dt)))).
Proof.
  intros Hk Hfree. rewrite substep_lookup, Hk. simpl.
  unfold accelerate, accelerateWith. rewrite Hfree. reflexivity.
Qed.

End Integrator.

(** C3. A body with [isFixed = true] keeps its position and velocity (indeed
    the whole record) through any number [n] of substeps.  In the state
    reached after those substeps it is still a force source for every other
    body [k]: the inner loop of [k] adds, at the index of the fixed body, the
    gravitational pull [normalize (p_fixed - p_k) * (G * m_k * m_fixed /
    distSq)] to the running total; that total is the same as if the body
    were not fixed; and it is the force that changes the velocity of [k] in
    the next substep when [k] is free. *)
Theorem fixed_body_is_anchor_and_source {A : Type} `{Scalar A}
    (dt : A) (n : nat) (bodies : list (Body A)) (i : nat) (b : Body A) :
  bodies !! i = Some b -> isFixed b = true ->
  let now := Nat.iter n (substep dt) bodies in
  now !! i = Some b
  /\ position <$> now !! i = Some (position b)
  /\ velocity <$> now !! i = Some (velocity b)
  /\ forall k bk, k <> i ->
       let diff := Vector3Subtract (position b) (position bk) in
       let pull :=
         Vector3Scale (Vector3Normalize diff)
           (fdiv (fmul (fmul G (mass bk)) (mass b)) (Vector3LengthSqr diff)) in
       totalForce now k bk
       = fold_left (forceStep pairForce now k bk)
           (seq (S i) (length now - S i))
           (Vector3Add
              (fold_left (forceStep pairForce now k bk) (seq 0 i) Vector3Zero)
              pull)
       /\ totalForce
            (<[ i := mkBody (position b) (velocity b) (mass b) (radius b) (color b)
                           false ]> now) k bk
          = totalForce now k bk
       /\ (now !! k = Some bk -> isFixed bk = false ->
           substep dt now !! k
           = Some (moveBody dt
                     (setVelocity bk
                        (Vector3Add (velocity bk)
                           (Vector3Scale
                              (Vector3Scale (totalForce now k bk)
                                 (fdiv (flit 1) (mass bk)))
                              dt))))).
Proof.
  intros Hb Hfix now.
  assert (Hnow : now !! i = Some b) by (apply iter_substep_fixed; assumption).
  split_and!.
  - exact Hnow.
  - rewrite Hnow. reflexivity.
  - rewrite Hnow. reflexivity.
  - intros k bk Hk diff pull. split_and!.
    + exact (totalForce_split now i k b bk Hnow Hk).
    + apply totalForce_flag. exact Hnow.
    + apply substep_free_lookup.
Qed.


(** C10. Taking the line that clamps [dist] out of the force loop changes
    nothing: a substep, and a whole frame, return the same bodies (so the
    same velocities and positions) with and without it. *)
Theorem clamp_line_is_dead {A : Type} `{Scalar A}
    (isPaused : bool) (timeSpeed dt : A) (bodies : list (Body A)) :
  substep_unclamped dt bodies = substep dt bodies
  /\ physics_unclamped isPaused timeSpeed bodies = physics isPaused timeSpeed bodies.
Proof.
  assert (Hpair : forall bi bj : Body A, pairForce_unclamped bi bj = pairForce bi bj).
  { intros bi bj. unfold pairForce_unclamped, pairForce. reflexivity. }
  assert (Hsub : forall d l, substep_unclamped d l = substep d l).
  { intros d l. unfold substep_unclamped, substep, substepWith, velocityPassWith.
    apply (f_equal (positionPass d)). apply fold_left_pointwise.
    intros l' k. unfold updateVelocityWith.
    destruct (l' !! k) as [bk|]; [|reflexivity].
    destruct (isFixed bk); [reflexivity|].
    rewrite (totalForceWith_ext _ pairForce) by exact Hpair. reflexivity. }
  split; [apply Hsub|].
  unfold physics_unclamped, physics, physicsWith.
  destruct (negb isPaused); [|reflexivity].
  generalize SUBSTEPS. intros m. induction m as [|m IH]; simpl; [reflexivity|].
  rewrite IH. apply Hsub.
Qed.

(** ** Running the program in binary32 *)

Section Runs.
Import Binary32 Inputs.

(** The literal [0.0005f] is the binary32 number [0x3A03126F]. *)
Example BASE_DT_bits : (BASE_DT : float) = S754_finite false 8589935 (-34).
Proof. reflexivity. Qed.

(** One substep on the start preset: the fixed sun pulls the planet, whose
    velocity along x goes from 0 to -0.5. *)
Example preset_first_substep :
  velocity <$> substep BASE_DT initialBodies !! 1%nat
  = Some (mkVector3 (flit (-1 # 2)) (flit 0) (flit 310) : Vector3 float).
Proof. vm_compute. reflexivity. Qed.

Lemma fixed_body_is_anchor_and_source_witness :
  (initialBodies : list (Body float)) !! 0%nat = Some sun
  /\ isFixed (sun : Body float) = true
  /\ Nat.iter 8 (substep BASE_DT) initialBodies !! 0%nat = Some (sun : Body float)
  /\ totalForce initialBodies 1 presetPlanet
     = (mkVector3 (flit (-100000)) (flit 0) (flit 0) : Vector3 float).
Proof.
  split; [reflexivity|]. split; [reflexivity|]. split.
  - exact (proj1 (fixed_body_is_anchor_and_source
                    (A := float) BASE_DT 8 initialBodies 0 sun eq_refl eq_refl)).
  - pose proof (fixed_body_is_anchor_and_source
                  (A := float) BASE_DT 0 initialBodies 0 sun eq_refl eq_refl)
      as (_ & _ & _ & Hsource).
    destruct (Hsource 1%nat presetPlanet ltac:(discriminate)) as (Hsum & _ & _).
    etransitivity; [exact Hsum|]. vm_compute. reflexivity.
Defined.


(** C1 (the code at a failing input). Dragging from the origin while the
    sun sits there makes the builder put a second body on top of the sun.
    For that pair the squared distance is zero, so the force magnitude
    [G * m_i * m_j / distSq] is [+infinity]; the normalised direction is the
    zero vector, the contribution [0 * infinity] is NaN, and one substep
    leaves the new body with NaN velocity and NaN position.  The clamped
    [dist] is never read. *)
Theorem coincident_bodies_force_is_infinite :
  snd (builderUpdate true false release origin (flit 200) (fromOrigin, resetBodies))
    = coincident
  /\ position onTheSun = position (sun : Body float)
  /\ forceMagnitude onTheSun sun = S754_infinity false
  /\ pairForce onTheSun sun = nan3
  /\ totalForce coincident 1 onTheSun = nan3
  /\ velocity <$> substep BASE_DT coincident !! 1%nat = Some nan3
  /\ position <$> substep BASE_DT coincident !! 1%nat = Some nan3.
Proof. vm_compute. repeat split. Qed.

(** C9 (the code at a failing input). On a screen 1080 pixels wide the
    slider is drawn from x = 120 to x = 1060; holding the button at its right
    end, x = 1060, inside the screen, sets the selected mass to 2010. *)
Theorem slider_right_end_selects_2010 :
  (120 < 1060 < 1080)%Z
  /\ sliderUpdate true 1060 30 1080 (flit 200) = (flit 2010 : float)
  /\ fltb (flit 2000) (sliderUpdate true 1060 30 1080 (flit 200) : float) = true.
Proof. vm_compute. repeat split. Qed.

(** C7 (counterexample). The slider can select the mass 1000 exactly; a
    body created with that mass (1000 >= 1000) gets the light colour. *)
Lemma mass_1000_is_light :
  sliderUpdate true 1110 30 2140 (flit 200) = (flit 1000 : float)
  /\ SFleb (flit 1000) (flit 1000 : float) = true
  /\ mass <$> snd (builderUpdate true false release origin (flit 1000)
                     (fromOrigin, resetBodies))
     = [flit 5000; flit 1000]
  /\ color <$> snd (builderUpdate true false release origin (flit 1000)
                      (fromOrigin, resetBodies))
     = [GOLD; WHITE].
Proof. vm_compute. repeat split. Qed.

(** C8 (counterexample). A press while the mouse ray is parallel to the
    plane starts a gesture at the zero vector; dragging to a proper point
    and releasing then appends, after the sun, a body whose position is the
    zero vector. *)
Lemma degenerate_press_creates_body_at_zero :
  degenerate parallelRay = true
  /\ GetMouseOnPlane parallelRay = Vector3Zero
  /\ active (fst afterPress) = true
  /\ startPos (fst afterPress) = Vector3Zero
  /\ endPos (fst afterHold) = mkVector3 (flit 10) (flit 0) (flit 0)
  /\ position <$> snd afterRelease = [Vector3Zero; Vector3Zero]
  /\ isFixed <$> snd afterRelease = [true; false].
Proof. vm_compute. repeat split. Qed.

End Runs.

(** ** The builder and degenerate projections *)

(** C8 (amended). When the mouse ray is degenerate, [GetMouseOnPlane]
    returns the zero vector and the builder uses it like any other point: a
    press starts a gesture with [startPos] zero, a held button sets [endPos]
    to zero, and the release of a gesture that started there appends a body
    at the zero position whenever the drag is longer than 2. *)
Theorem degenerate_point_is_used_as_is {A : Type} `{Scalar A}
    (ray : Ray A) (mousePos3D endP : Vector3 A) (newPlanetMass : A)
    (builder : PlanetBuilder A) (bodies : list (Body A)) :
  degenerate ray = true ->
  let diff := Vector3Subtract endP Vector3Zero in
  GetMouseOnPlane ray = Vector3Zero
  /\ builderUpdate true false (mkMouse true true false) (GetMouseOnPlane ray)
       newPlanetMass (builder, bodies)
     = (mkBuilder true Vector3Zero Vector3Zero, bodies)
  /\ builderUpdate true false (mkMouse false true false) (GetMouseOnPlane ray)
       newPlanetMass (builder, bodies)
     = (mkBuilder (active builder) (startPos builder) Vector3Zero, bodies)
  /\ snd (builderUpdate true false (mkMouse false false true) mousePos3D
            newPlanetMass (mkBuilder true (GetMouseOnPlane ray) endP, bodies))
     = (if fltb (flit 2) (Vector3Length diff)
        then bodies ++ [newBody (mkBuilder true Vector3Zero endP) diff newPlanetMass]
        else bodies)
  /\ position (newBody (mkBuilder true Vector3Zero endP) diff newPlanetMass)
     = Vector3Zero.
Proof.
  intros Hdeg diff.
  assert (Hzero : GetMouseOnPlane ray = Vector3Zero).
  { unfold degenerate in Hdeg. unfold GetMouseOnPlane.
    destruct (fltb (fabs (vy (ray_direction ray))) (flit (1 # 1000)));
      [reflexivity|].
    simpl in Hdeg. rewrite Hdeg. reflexivity. }
  rewrite Hzero. split_and!; reflexivity.
Qed.

Lemma degenerate_point_is_used_as_is_witness :
  degenerate Inputs.parallelRay = true
  /\ GetMouseOnPlane Inputs.parallelRay = Vector3Zero.
Proof.
  split; [reflexivity|].
  exact (proj1 (degenerate_point_is_used_as_is
                  Inputs.parallelRay Inputs.origin Inputs.origin (flit 200)
                  Inputs.idleBuilder resetBodies eq_refl)).
Defined.

(** ** Exact arithmetic: vectors over the reals *)

Section RealVectors.
Import Exact ExactRef.
Local Open Scope R_scope.

Lemma Q2R_inject_Z (n : Z) : Q2R (inject_Z n) = IZR n.
Proof. unfold Q2R. simpl. lra. Qed.

Lemma Rltb_true (x y : R) : Rltb x y = true <-> x < y.
Proof. unfold Rltb. destruct (Rlt_dec x y); split; intros; try discriminate; tauto. Qed.

Lemma Rltb_false (x y : R) : Rltb x y = false <-> y <= x.
Proof.
  unfold Rltb. destruct (Rlt_dec x y); split; intros; try discriminate; lra.
Qed.

Lemma vector3_eq (u v : Vector3 R) :
  vx u = vx v -> vy u = vy v -> vz u = vz v -> u = v.
Proof. destruct u, v; simpl; intros; subst; reflexivity. Qed.

Lemma vzero_R : @Vector3Zero R _ = mkVector3 0 0 0.
Proof. apply vector3_eq; simpl; apply (Q2R_inject_Z 0). Qed.

Lemma vadd_zero_l (v : Vector3 R) : Vector3Add Vector3Zero v = v.
Proof. rewrite vzero_R. apply vector3_eq; simpl; lra. Qed.

Lemma vadd_zero_r (v : Vector3 R) : Vector3Add v Vector3Zero = v.
Proof. rewrite vzero_R. apply vector3_eq; simpl; lra. Qed.

Lemma vadd_comm (u v : Vector3 R) : Vector3Add u v = Vector3Add v u.
Proof. apply vector3_eq; simpl; lra. Qed.

Lemma vadd_assoc (u v w : Vector3 R) :
  Vector3Add u (Vector3Add v w) = Vector3Add (Vector3Add u v) w.
Proof. apply vector3_eq; simpl; lra. Qed.

Lemma vneg_zero : vneg Vector3Zero = Vector3Zero.
Proof. rewrite vzero_R. apply vector3_eq; simpl; lra. Qed.

Lemma vscale_zero (c : R) : Vector3Scale Vector3Zero c = Vector3Zero.
Proof. rewrite vzero_R. apply vector3_eq; simpl; lra. Qed.

Lemma vself_neg (v : Vector3 R) : v = vneg v -> v = Vector3Zero.
Proof.
  intros Hv. rewrite vzero_R.
  apply (f_equal vx) in Hv as Hx. apply (f_equal vy) in Hv as Hy.
  apply (f_equal vz) in Hv as Hz. simpl in Hx, Hy, Hz.
  apply vector3_eq; simpl; lra.
Qed.

(** *** Sums of vectors *)

Lemma fold_left_vadd {X : Type} (h : X -> Vector3 R) (l : list X) (a : Vector3 R) :
  fold_left (fun acc x => Vector3Add acc (h x)) l a = Vector3Add a (vsum (map h l)).
Proof.
  revert a. induction l as [|x l IH]; intros a; simpl.
  - symmetry. apply vadd_zero_r.
  - rewrite IH. symmetry. apply vadd_assoc.
Qed.

Lemma vsum_map_ext {X : Type} (f g : X -> Vector3 R) (l : list X) :
  (forall x, In x l -> f x = g x) -> vsum (map f l) = vsum (map g l).
Proof.
  induction l as [|x l IH]; intros Hfg; simpl; [reflexivity|].
  rewrite (Hfg x) by (left; reflexivity).
  rewrite IH; [reflexivity|]. intros y Hy. apply Hfg. right. exact Hy.
Qed.

Lemma vsum_map_zero {X : Type} (l : list X) :
  vsum (map (fun _ => Vector3Zero) l) = Vector3Zero.
Proof.
  induction l as [|x l IH]; simpl; [reflexivity|].
  rewrite IH. apply vadd_zero_l.
Qed.

Lemma vsum_map_add {X : Type} (f g : X -> Vector3 R) (l : list X) :
  vsum (map (fun x => Vector3Add (f x) (g x)) l)
  = Vector3Add (vsum (map f l)) (vsum (map g l)).
Proof.
  induction l as [|x l IH]; simpl.
  - symmetry. apply vadd_zero_l.
  - rewrite IH. apply vector3_eq; simpl; lra.
Qed.

Lemma vsum_map_neg {X : Type} (f : X -> Vector3 R) (l : list X) :
  vsum (map (fun x => vneg (f x)) l) = vneg (vsum (map f l)).
Proof.
  induction l as [|x l IH]; simpl.
  - symmetry. apply vneg_zero.
  - rewrite IH. apply vector3_eq; simpl; lra.
Qed.

Lemma vsum_map_scale {X : Type} (f : X -> Vector3 R) (c : R) (l : list X) :
  vsum (map (fun x => Vector3Scale (f x) c) l) = Vector3Scale (vsum (map f l)) c.
Proof.
  induction l as [|x l IH]; simpl.
  - symmetry. apply vscale_zero.
  - rewrite IH. apply vector3_eq; simpl; lra.
Qed.

(** The order of a double sum can be exchanged. *)
Lemma vsum_swap {X Y : Type} (g : X -> Y -> Vector3 R) (l1 : list X) (l2 : list Y) :
  vsum (map (fun i => vsum (map (g i) l2)) l1)
  = vsum (map (fun j => vsum (map (fun i => g i j) l1)) l2).
Proof.
  induction l1 as [|a l1 IH]; simpl.
  - symmetry. apply vsum_map_zero.
  - rewrite IH, <- vsum_map_add. reflexivity.
Qed.

(** A double sum of an antisymmetric family vanishes. *)
Lemma vsum_antisymmetric {X : Type} (g : X -> X -> Vector3 R) (l : list X) :
  (forall i j, g i j = vneg (g j i)) ->
  vsum (map (fun i => vsum (map (g i) l)) l) = Vector3Zero.
Proof.
  intros Hg. apply vself_neg.
  rewrite <- vsum_map_neg.
  rewrite vsum_swap at 1.
  apply vsum_map_ext. intros j _.
  rewrite <- vsum_map_neg.
  apply vsum_map_ext. intros i _. apply Hg.
Qed.

(** A sum over a list, read by index. *)
Lemma vsum_map_lookup {X : Type} (h : X -> Vector3 R) (l : list X) :
  vsum (map h l)
  = vsum (map (fun i => from_option h Vector3Zero (l !! i)) (seq 0 (length l))).
Proof.
  induction l as [|x l IH]; simpl; [reflexivity|].
  rewrite IH, <- seq_shift, map_map. reflexivity.
Qed.

End RealVectors.

(** ** Exact arithmetic: conservation of momentum *)

Section RealPhysics.
Import Exact ExactRef.
Local Open Scope R_scope.

Lemma normalize_neg (d e : Vector3 R) :
  e = vneg d -> Vector3Normalize e = vneg (Vector3Normalize d).
Proof.
  intros ->. unfold Vector3Normalize, vneg. destruct d as [dx dy dz]. reals.
  replace (- dx * - dx + - dy * - dy + - dz * - dz)
    with (dx * dx + dy * dy + dz * dz) by ring.
  destruct (Reqb _ _); simpl; [reflexivity|].
  apply vector3_eq; reals; ring.
Qed.

Lemma pairForce_antisymmetric (bi bj : Body R) :
  pairForce bi bj = vneg (pairForce bj bi).
Proof.
  unfold pairForce.
  set (d := Vector3Subtract (position bi) (position bj)).
  set (e := Vector3Subtract (position bj) (position bi)).
  assert (He : e = vneg d).
  { unfold e, d, Vector3Subtract, vneg. apply vector3_eq; reals; ring. }
  rewrite (normalize_neg d e He).
  assert (Hsq : Vector3LengthSqr e = Vector3LengthSqr d).
  { rewrite He. unfold Vector3LengthSqr, vneg. reals. ring. }
  rewrite Hsq.
  unfold Vector3Scale, vneg. apply vector3_eq; reals; unfold Rdiv; ring.
Qed.

Lemma pull_antisymmetric (bodies : list (Body R)) (i j : nat) :
  pull bodies i j = vneg (pull bodies j i).
Proof.
  unfold pull. rewrite (Nat.eqb_sym j i).
  destruct (bodies !! i) as [bi|], (bodies !! j) as [bj|];
    try (symmetry; apply vneg_zero).
  destruct (Nat.eqb i j); [symmetry; apply vneg_zero|].
  apply pairForce_antisymmetric.
Qed.

Lemma forceStep_pull (bodies : list (Body R)) (i : nat) (bi : Body R)
    (acc : Vector3 R) (j : nat) :
  bodies !! i = Some bi ->
  forceStep pairForce bodies i bi acc j = Vector3Add acc (pull bodies i j).
Proof.
  intros Hi. unfold forceStep, pull. rewrite Hi.
  destruct (bodies !! j), (Nat.eqb i j);
    reflexivity || (symmetry; apply vadd_zero_r).
Qed.

(** The inner loop computes the sum of the pulls of all other bodies. *)
Lemma totalForce_pull (bodies : list (Body R)) (i : nat) (bi : Body R) :
  bodies !! i = Some bi ->
  totalForce bodies i bi = vsum (map (pull bodies i) (seq 0 (length bodies))).
Proof.
  intros Hi. unfold totalForce, totalForceWith.
  rewrite (fold_left_pointwise _ (fun acc j => Vector3Add acc (pull bodies i j)))
    by (intros; apply forceStep_pull; exact Hi).
  rewrite fold_left_vadd. apply vadd_zero_l.
Qed.

(** Newton's third law for the accumulated forces. *)
Lemma total_forces_cancel (bodies : list (Body R)) :
  vsum (map (fun i => vsum (map (pull bodies i) (seq 0 (length bodies))))
            (seq 0 (length bodies)))
  = Vector3Zero.
Proof. apply vsum_antisymmetric. intros i j. apply pull_antisymmetric. Qed.

Lemma pairForce_massless (bi bj : Body R) :
  mass bi = 0 -> pairForce bi bj = Vector3Zero.
Proof.
  intros Hm. unfold pairForce, Vector3Scale. rewrite Hm, vzero_R.
  apply vector3_eq; reals; unfold Rdiv; ring.
Qed.

Lemma totalForce_massless (bodies : list (Body R)) (i : nat) (bi : Body R) :
  mass bi = 0 -> totalForce bodies i bi = Vector3Zero.
Proof.
  intros Hm. unfold totalForce, totalForceWith.
  generalize (seq 0 (length bodies)). intros l.
  induction l as [|j l IH]; simpl; [reflexivity|].
  replace (forceStep pairForce bodies i bi Vector3Zero j) with (@Vector3Zero R _);
    [exact IH|].
  unfold forceStep. destruct (Nat.eqb i j); [reflexivity|].
  destruct (bodies !! j) as [bj|]; [|reflexivity].
  rewrite pairForce_massless by exact Hm. symmetry. apply vadd_zero_l.
Qed.

Lemma momentum_vsum (bodies : list (Body R)) :
  momentum bodies
  = vsum (map (fun b => Vector3Scale (velocity b) (mass b)) bodies).
Proof. unfold momentum. rewrite fold_left_vadd. apply vadd_zero_l. Qed.

(** What one substep does to [mass * velocity] of a body that is not fixed. *)
Lemma substep_impulse (dt : R) (bodies : list (Body R)) (i : nat) (b : Body R) :
  isFixed b = false ->
  let b' := moveBody dt (accelerate dt bodies i b) in
  Vector3Scale (velocity b') (mass b')
  = Vector3Add (Vector3Scale (velocity b) (mass b))
               (Vector3Scale (totalForce bodies i b) dt).
Proof.
  intros Hfix. unfold accelerate, accelerateWith, moveBody. rewrite Hfix.
  cbn [setVelocity isFixed]. rewrite Hfix.
  cbn [negb setPosition setVelocity velocity mass].
  fold (totalForce bodies i b).
  destruct (Req_dec (mass b) 0) as [Hm|Hm].
  - rewrite totalForce_massless by exact Hm. rewrite Hm, vzero_R.
    unfold Vector3Scale, Vector3Add. apply vector3_eq; reals; unfold Rdiv; ring.
  - unfold Vector3Scale, Vector3Add.
    apply vector3_eq; reals; unfold Q2R; simpl; field; exact Hm.
Qed.

End RealPhysics.

(** C2. When no body is fixed, one substep leaves the total momentum, the
    sum over all bodies of [mass * velocity], unchanged in exact (real)
    arithmetic: the pulls of any two bodies on each other are opposite. *)
Theorem substep_conserves_momentum (dt : R) (bodies : list (Body R)) :
  Forall (fun b => isFixed b = false) bodies ->
  momentum (substep dt bodies) = momentum bodies.
Proof.
  intros Hfree.
  rewrite !momentum_vsum.
  rewrite (vsum_map_lookup _ (substep dt bodies)), length_substep.
  rewrite (vsum_map_ext _
    (fun i => Vector3Add
                (from_option (fun b => Vector3Scale (velocity b) (mass b))
                             Vector3Zero (bodies !! i))
                (Vector3Scale
                   (vsum (map (pull bodies i) (seq 0 (length bodies))))
                   dt))).
  - rewrite vsum_map_add, vsum_map_scale, total_forces_cancel, vscale_zero.
    rewrite vadd_zero_r. symmetry. apply vsum_map_lookup.
  - intros i Hi. apply in_seq in Hi.
    destruct (lookup_lt_is_Some_2 bodies i) as [b Hb]; [lia|].
    rewrite substep_lookup, Hb. simpl.
    assert (Hfix : isFixed b = false).
    { rewrite Forall_forall in Hfree. apply Hfree.
      apply list_elem_of_lookup. eauto. }
    rewrite (substep_impulse dt bodies i b Hfix).
    rewrite (totalForce_pull bodies i b Hb). reflexivity.
Qed.

Lemma substep_conserves_momentum_witness :
  Forall (fun b => isFixed b = false) Inputs.freePair
  /\ momentum (substep BASE_DT Inputs.freePair) = momentum Inputs.freePair.
Proof.
  assert (Hfree : Forall (fun b : Body R => isFixed b = false) Inputs.freePair)
    by (repeat constructor).
  split; [exact Hfree|].
  exact (substep_conserves_momentum BASE_DT Inputs.freePair Hfree).
Defined.

(** ** Exact arithmetic: the curvature sampler *)

Section RealCurve.
Import Exact.
Local Open Scope R_scope.

Lemma curveStep_spec (x z y : R) (b : Body R) :
  curveStep x z y b = if heavyEnough b then y - depression x z b else y.
Proof.
  unfold curveStep, heavyEnough, depression, Vector2LengthSqr, Vector2Subtract.
  reals.
  destruct (Rltb (mass b) (Q2R 50)) eqn:Hlight;
    [apply Rltb_true in Hlight | apply Rltb_false in Hlight];
    change (Q2R 50) with (Q2R (inject_Z 50)) in Hlight;
    rewrite Q2R_inject_Z in Hlight;
    destruct (Rle_dec 50 (mass b)); try lra; try reflexivity.
  f_equal.
  set (d := _ / _). set (d' := _ / _).
  assert (Hd : d = d').
  { unfold d, d'. unfold Q2R. simpl. f_equal; lra. }
  rewrite Hd. change (Q2R 40) with (Q2R (inject_Z 40)). rewrite Q2R_inject_Z.
  unfold Rmin.
  destruct (Rltb 40 d') eqn:Hbig;
    [apply Rltb_true in Hbig | apply Rltb_false in Hbig];
    destruct (Rle_dec 40 d'); lra.
Qed.

Lemma curve_fold (x z y0 : R) (bodies : list (Body R)) :
  fold_left (curveStep x z) bodies y0
  = y0 - fold_right Rplus 0 (map (depression x z) (List.filter heavyEnough bodies)).
Proof.
  revert y0. induction bodies as [|b bodies IH]; intros y0; simpl; [lra|].
  rewrite IH, curveStep_spec.
  destruct (heavyEnough b); simpl; lra.
Qed.

Lemma depression_le_40 (x z : R) (b : Body R) : depression x z b <= 40.
Proof. unfold depression. apply Rmin_l. Qed.

End RealCurve.

(** C5. In exact arithmetic the curvature sampler returns -15 minus the sum,
    over the bodies of mass at least 50, of
    [min 40 ((mass * 0.5) / (planar squared distance + 60))]; bodies of mass
    below 50 add nothing.  With a single body, whatever its mass, the result
    is at least [-15 - 40]. *)
Theorem curve_is_base_minus_clamped_depressions
    (x z : R) (bodies : list (Body R)) (b : Body R) :
  GetSpacetimeCurve x z bodies = curveSpec x z bodies
  /\ curveSpec x z bodies
     = (-15 - fold_right Rplus 0
                 (map (fun b => Rmin 40
                         ((mass b * 0.5) /
                          ((x - vx (position b)) * (x - vx (position b))
                           + (z - vz (position b)) * (z - vz (position b)) + 60)))
                    (List.filter (fun b => if Rle_dec 50 (mass b) then true else false)
                       bodies)))%R
  /\ (-15 - 40 <= GetSpacetimeCurve x z [b])%R.
Proof.
  assert (Hbase : (- Q2R 15 = -15)%R).
  { change (Q2R 15) with (Q2R (inject_Z 15)). rewrite Q2R_inject_Z. reflexivity. }
  assert (Hall : forall l, GetSpacetimeCurve x z l = curveSpec x z l).
  { intros l. unfold GetSpacetimeCurve, curveSpec. rewrite curve_fold.
    reals. rewrite Hbase. reflexivity. }
  split_and!.
  - apply Hall.
  - reflexivity.
  - rewrite Hall. unfold curveSpec. simpl.
    pose proof (depression_le_40 x z b).
    destruct (heavyEnough b); simpl; lra.
Qed.

(** ** The builder on gesture release *)

Lemma builderUpdate_release {A : Type} `{Scalar A}
    (mousePos3D : Vector3 A) (newPlanetMass : A)
    (builder : PlanetBuilder A) (bodies : list (Body A)) :
  active builder = true ->
  let diff := Vector3Subtract (endPos builder) (startPos builder) in
  builderUpdate true false (mkMouse false false true) mousePos3D newPlanetMass
    (builder, bodies)
  = (mkBuilder false (startPos builder) (endPos builder),
     if fltb (flit 2) (Vector3Length diff)
     then bodies ++ [newBody builder diff newPlanetMass]
     else bodies).
Proof. intros Hact diff. unfold builderUpdate. simpl. rewrite Hact. reflexivity. Qed.

Lemma newBody_color_code {A : Type} `{Scalar A}
    (builder : PlanetBuilder A) (diff : Vector3 A) (m : A) :
  color (newBody builder diff m) = if fltb (flit 1000) m then RED else WHITE.
Proof. reflexivity. Qed.

Section RealBuilder.
Import Exact.
Local Open Scope R_scope.

Lemma Q2R_lit (n : Z) : Q2R (n # 1) = IZR n.
Proof. apply Q2R_inject_Z. Qed.

Lemma newBody_fields (builder : PlanetBuilder R) (diff : Vector3 R) (m : R) :
  position (newBody builder diff m) = startPos builder
  /\ velocity (newBody builder diff m) = Vector3Scale diff 5
  /\ mass (newBody builder diff m) = m
  /\ radius (newBody builder diff m) = Rmax 1 (sqrt m / 4)
  /\ isFixed (newBody builder diff m) = false.
Proof.
  unfold newBody. reals. rewrite !Q2R_lit. split_and!; try reflexivity.
  cbn [radius]. unfold Rmax.
  destruct (Rltb (sqrt m / 4) 1) eqn:Hsmall;
    [apply Rltb_true in Hsmall | apply Rltb_false in Hsmall];
    destruct (Rle_dec 1 (sqrt m / 4)); lra.
Qed.

Lemma newBody_color (builder : PlanetBuilder R) (diff : Vector3 R) (m : R) :
  (m > 1000 -> color (newBody builder diff m) = RED)
  /\ (m <= 1000 -> color (newBody builder diff m) = WHITE).
Proof.
  unfold newBody. reals. rewrite !Q2R_lit. cbn [color].
  destruct (Rltb 1000 m) eqn:Hheavy;
    [apply Rltb_true in Hheavy | apply Rltb_false in Hheavy];
    split; intros; try reflexivity; lra.
Qed.

Lemma dragged_length :
  Vector3Length (Vector3Subtract (endPos Inputs.dragged) (startPos Inputs.dragged)) > 2.
Proof.
  unfold Vector3Length, Vector3Subtract, Inputs.dragged.
  cbn [endPos startPos]. reals.
  replace ((3 - 0) * (3 - 0) + (0 - 0) * (0 - 0) + (0 - 0) * (0 - 0)) with (3 * 3)
    by lra.
  rewrite sqrt_square by lra. lra.
Qed.

End RealBuilder.

(** C6 (counterexample). A release while the pointer is in a UI band: the
    gesture is active and [|endPos - startPos| = 10 > 2], yet no body is
    appended and the builder stays active. *)
Lemma release_in_ui_band_is_ignored :
  touchingUI 30 1920 = true
  /\ active Inputs.fromOrigin = true
  /\ fltb (flit 2)
       (Vector3Length
          (Vector3Subtract (endPos Inputs.fromOrigin) (startPos Inputs.fromOrigin)))
     = true
  /\ builderUpdate true (touchingUI 30 1920) Inputs.release Inputs.origin
       (flit 200) (Inputs.fromOrigin, resetBodies)
     = (Inputs.fromOrigin, resetBodies)
  /\ active (fst (builderUpdate true (touchingUI 30 1920) Inputs.release
                    Inputs.origin (flit 200) (Inputs.fromOrigin, resetBodies)))
     = true.
Proof. vm_compute. repeat split. Qed.

(** C6 (amended). In exact arithmetic, on the frame of a release with
    [diff = endPos - startPos].  When the creation logic handles it (create
    mode, pointer outside the UI bands, gesture active): if [|diff| <= 2] the
    registry is unchanged; if [|diff| > 2] exactly one body is appended, with
    [position = startPos], [velocity = diff * 5], the selected mass,
    [radius = max 1 (sqrt mass / 4)] and [isFixed = false]; the builder is
    inactive afterwards in both cases.  Outside create mode, inside a UI
    band, or with no active gesture, nothing is appended and the builder is
    left as it is. *)
Theorem builder_release_threshold
    (isCreateMode touching : bool) (mousePos3D : Vector3 R) (newPlanetMass : R)
    (builder : PlanetBuilder R) (bodies : list (Body R)) :
  let diff := Vector3Subtract (endPos builder) (startPos builder) in
  let result :=
    builderUpdate isCreateMode touching (mkMouse false false true) mousePos3D
      newPlanetMass (builder, bodies) in
  (isCreateMode = true -> touching = false -> active builder = true ->
   ((Vector3Length diff <= 2)%R -> snd result = bodies)
   /\ ((Vector3Length diff > 2)%R ->
       exists b, snd result = bodies ++ [b]
         /\ position b = startPos builder
         /\ velocity b = Vector3Scale diff 5%R
         /\ mass b = newPlanetMass
         /\ radius b = Rmax 1 (sqrt newPlanetMass / 4)
         /\ isFixed b = false)
   /\ active (fst result) = false)
  /\ (isCreateMode = false \/ touching = true \/ active builder = false ->
      result = (builder, bodies)).
Proof.
  intros diff result. split.
  - intros -> -> Hact. unfold result.
    rewrite (builderUpdate_release mousePos3D newPlanetMass builder bodies Hact).
    fold diff. cbn [fst snd active]. reals. rewrite Q2R_lit.
    split_and!.
    + intros Hshort. apply Rltb_false in Hshort. rewrite Hshort. reflexivity.
    + intros Hlong. apply Rltb_true in Hlong. rewrite Hlong.
      exists (newBody builder diff newPlanetMass).
      split; [reflexivity|]. apply newBody_fields.
    + reflexivity.
  - unfold result, builderUpdate. cbn [pressed down released].
    intros [->|[->|Hidle]].
    + reflexivity.
    + destruct isCreateMode; reflexivity.
    + destruct isCreateMode, touching; cbn [andb negb]; try reflexivity.
      rewrite Hidle. reflexivity.
Qed.

Lemma builder_release_threshold_witness :
  active Inputs.dragged = true
  /\ (Vector3Length
        (Vector3Subtract (endPos Inputs.dragged) (startPos Inputs.dragged)) > 2)%R
  /\ exists b : Body R,
       snd (builderUpdate true false (mkMouse false false true)
              (mkVector3 3 0 0)%R 200%R (Inputs.dragged, [])) = [] ++ [b]
       /\ position b = startPos Inputs.dragged
       /\ velocity b
          = Vector3Scale
              (Vector3Subtract (endPos Inputs.dragged) (startPos Inputs.dragged)) 5%R
       /\ mass b = 200%R
       /\ radius b = Rmax 1 (sqrt 200 / 4)
       /\ isFixed b = false.
Proof.
  split; [reflexivity|]. split; [exact dragged_length|].
  exact (proj1 (proj2 (proj1 (builder_release_threshold true false
                                (mkVector3 3 0 0)%R 200%R Inputs.dragged [])
                             eq_refl eq_refl eq_refl))
               dragged_length).
Defined.

(** C7 (amended). In exact arithmetic, a body the builder appends carries
    the selected mass, and its colour is the heavy one (RED) exactly when
    that mass is greater than 1000, the light one (WHITE) when the mass is
    at most 1000. *)
Theorem builder_color_threshold
    (isCreateMode touching : bool) (mouse : MouseButton)
    (mousePos3D : Vector3 R) (newPlanetMass : R)
    (builder : PlanetBuilder R) (bodies : list (Body R)) (b : Body R) :
  snd (builderUpdate isCreateMode touching mouse mousePos3D newPlanetMass
         (builder, bodies)) = bodies ++ [b] ->
  mass b = newPlanetMass
  /\ ((newPlanetMass > 1000)%R -> color b = RED)
  /\ ((newPlanetMass <= 1000)%R -> color b = WHITE).
Proof.
  intros Hnew.
  assert (Hsame : bodies <> bodies ++ [b]).
  { intros Heq. apply (f_equal length) in Heq.
    rewrite length_app in Heq. simpl in Heq. lia. }
  unfold builderUpdate in Hnew.
  destruct (isCreateMode && negb touching); [|contradiction].
  match type of Hnew with
  | context [if released mouse && active ?bld then _ else _] =>
      destruct (released mouse && active bld); [|contradiction];
      set (bd := bld) in *
  end.
  cbn [snd] in Hnew.
  match type of Hnew with
  | context [if ?c then _ else _] => destruct c; [|contradiction]
  end.
  apply app_inv_head in Hnew. injection Hnew as <-.
  split; [reflexivity|]. apply newBody_color.
Qed.

Lemma builder_color_threshold_witness :
  snd (builderUpdate true false (mkMouse false false true) (mkVector3 3 0 0)%R
         2000%R (Inputs.dragged, []))
    = [] ++ [newBody Inputs.dragged
               (Vector3Subtract (endPos Inputs.dragged) (startPos Inputs.dragged))
               2000%R]
  /\ (2000 > 1000)%R
  /\ color (newBody Inputs.dragged
              (Vector3Subtract (endPos Inputs.dragged) (startPos Inputs.dragged))
              2000%R) = RED.
Proof.
  assert (Hnew :
    snd (builderUpdate true false (mkMouse false false true) (mkVector3 3 0 0)%R
           2000%R (Inputs.dragged, []))
    = [] ++ [newBody Inputs.dragged
               (Vector3Subtract (endPos Inputs.dragged) (startPos Inputs.dragged))
               2000%R]).
  { rewrite (builderUpdate_release _ _ Inputs.dragged [] eq_refl). cbn [snd].
    pose proof dragged_length as Hlong. apply Rltb_true in Hlong.
    reals. rewrite Q2R_lit. rewrite Hlong. reflexivity. }
  assert (Hheavy : (2000 > 1000)%R) by lra.
  split; [exact Hnew|]. split; [exact Hheavy|].
  exact (proj1 (proj2 (builder_color_threshold _ _ _ _ _ _ _ _ Hnew)) Hheavy).
Defined.

(** ** The mass slider in exact arithmetic *)

(** X18. In exact arithmetic, with the button held in the top 60 pixels
    and the pointer over the drawn slider, from x = 121 to x = screenW - 20,
    the selected mass lies in (10, 2010]. *)
Lemma slider_range_real (mouseX mouseY screenW : Z) (newPlanetMass : R) :
  (mouseY < 60)%Z -> (120 < mouseX <= screenW - 20)%Z ->
  (10 < sliderUpdate true mouseX mouseY screenW newPlanetMass <= 2010)%R.
Proof.
  intros Hy [Hlo Hhi]. unfold sliderUpdate.
  replace (mouseY <? 60)%Z with true by (symmetry; apply Z.ltb_lt; exact Hy).
  replace (120 <? mouseX)%Z with true by (symmetry; apply Z.ltb_lt; exact Hlo).
  cbn [andb]. unfold ofZ. reals. rewrite !Q2R_inject_Z, !Q2R_lit.
  rewrite minus_IZR.
  apply IZR_lt in Hlo. apply IZR_le in Hhi. rewrite minus_IZR in Hhi.
  set (a := (IZR mouseX - 120)%R). set (w := (IZR screenW - 140)%R).
  assert (Ha : (0 < a)%R) by (unfold a; lra).
  assert (Haw : (a <= w)%R) by (unfold a, w; lra).
  assert (Hw : (0 < / w)%R) by (apply Rinv_0_lt_compat; lra).
  assert (Hq : (a / w <= 1)%R).
  { unfold Rdiv. replace 1%R with (w * / w)%R by (apply Rinv_r; lra).
    apply Rmult_le_compat_r; lra. }
  assert (Hp : (0 < a / w)%R) by (unfold Rdiv; apply Rmult_lt_0_compat; lra).
  lra.
Qed.

(** ** More about the integrator *)

Section IntegratorFields.
Context {A : Type} `{Scalar A} {X : Type}.
Variable f : Body A -> X.
Hypothesis f_velocity : forall b v, f (setVelocity b v) = f b.
Hypothesis f_position : forall b p, f (setPosition b p) = f b.

(** A field that neither pass writes is the same after a substep. *)
Lemma substep_field (dt : A) (bodies : list (Body A)) :
  f <$> substep dt bodies = f <$> bodies.
Proof.
  apply list_eq. intros i.
  rewrite !list_lookup_fmap, substep_lookup.
  destruct (bodies !! i) as [b|]; simpl; [|reflexivity].
  f_equal. unfold moveBody, accelerate, accelerateWith.
  destruct (isFixed b) eqn:Hfix; simpl; rewrite Hfix; simpl; [reflexivity|].
  rewrite f_position, f_velocity. reflexivity.
Qed.

Lemma iter_substep_field (dt : A) (n : nat) (bodies : list (Body A)) :
  f <$> Nat.iter n (substep dt) bodies = f <$> bodies.
Proof.
  induction n as [|n IH]; simpl; [reflexivity|].
  rewrite substep_field. exact IH.
Qed.

Lemma physics_field (isPaused : bool) (timeSpeed : A) (bodies : list (Body A)) :
  f <$> physics isPaused timeSpeed bodies = f <$> bodies.
Proof.
  unfold physics, physicsWith. destruct (negb isPaused); [|reflexivity].
  apply iter_substep_field.
Qed.

End IntegratorFields.

Lemma length_physics {A : Type} `{Scalar A}
    (isPaused : bool) (timeSpeed : A) (bodies : list (Body A)) :
  length (physics isPaused timeSpeed bodies) = length bodies.
Proof.
  rewrite <- (length_fmap isFixed (physics _ _ _)), <- (length_fmap isFixed bodies).
  f_equal. apply physics_field; reflexivity.
Qed.

Lemma physics_fixed_lookup {A : Type} `{Scalar A}
    (isPaused : bool) (timeSpeed : A) (bodies : list (Body A)) (i : nat) (b : Body A) :
  bodies !! i = Some b -> isFixed b = true ->
  physics isPaused timeSpeed bodies !! i = Some b.
Proof.
  intros Hb Hfix. unfold physics, physicsWith.
  destruct (negb isPaused); [|exact Hb].
  apply iter_substep_fixed; assumption.
Qed.

(** X1. Whatever the pause flag, the time speed and the bodies, the physics
    block of a frame keeps the number of bodies and, body by body, the mass,
    the radius, the colour and the fixed flag: it writes positions and
    velocities only. *)
Theorem physics_writes_only_position_and_velocity {A : Type} `{Scalar A}
    (isPaused : bool) (timeSpeed : A) (bodies : list (Body A)) :
  length (physics isPaused timeSpeed bodies) = length bodies
  /\ (fun b => (mass b, radius b, color b, isFixed b))
       <$> physics isPaused timeSpeed bodies
     = (fun b => (mass b, radius b, color b, isFixed b)) <$> bodies.
Proof.
  split; [apply length_physics|].
  apply physics_field; reflexivity.
Qed.

(** X2. When every body is fixed, as right after a reset, the physics block
    returns the registry unchanged. *)
Theorem physics_of_fixed_bodies_is_identity {A : Type} `{Scalar A}
    (isPaused : bool) (timeSpeed : A) (bodies : list (Body A)) :
  Forall (fun b => isFixed b = true) bodies ->
  physics isPaused timeSpeed bodies = bodies.
Proof.
  intros Hall. apply list_eq. intros i.
  destruct (bodies !! i) as [b|] eqn:Hb.
  - apply physics_fixed_lookup; [exact Hb|].
    rewrite Forall_forall in Hall. apply Hall.
    apply list_elem_of_lookup. eauto.
  - apply lookup_ge_None. rewrite length_physics.
    apply lookup_ge_None. exact Hb.
Qed.

Lemma physics_of_fixed_bodies_is_identity_witness :
  Forall (fun b : Body Binary32.float => isFixed b = true) resetBodies
  /\ physics false (flit 1) resetBodies = (resetBodies : list (Body Binary32.float)).
Proof.
  assert (Hall : Forall (fun b : Body Binary32.float => isFixed b = true) resetBodies)
    by (repeat constructor).
  split; [exact Hall|].
  exact (physics_of_fixed_bodies_is_identity false (flit 1) resetBodies Hall).
Defined.

Section RealIntegrator.
Import Exact.
Local Open Scope R_scope.

(** One substep with no fixed body, on the total momentum. *)
Lemma substep_momentum (dt : R) (bodies : list (Body R)) :
  Forall (fun b => isFixed b = false) bodies ->
  momentum (substep dt bodies) = momentum bodies.
Proof.
  intros Hfree. rewrite !momentum_vsum.
  rewrite (vsum_map_lookup _ (substep dt bodies)), length_substep.
  rewrite (vsum_map_lookup _ bodies).
  set (P := fun i : nat =>
              from_option (fun b : Body R => Vector3Scale (velocity b) (mass b))
                          Vector3Zero (bodies !! i)).
  set (F := fun i : nat => vsum (map (pull bodies i) (seq 0 (length bodies)))).
  transitivity
    (vsum (map (fun i => Vector3Add (P i) (Vector3Scale (F i) dt))
               (seq 0 (length bodies)))).
  - apply vsum_map_ext. intros i Hi. apply in_seq in Hi.
    destruct (lookup_lt_is_Some_2 bodies i) as [b Hb]; [lia|].
    rewrite substep_lookup. unfold P, F. rewrite Hb. simpl.
    rewrite Forall_forall in Hfree.
    rewrite substep_impulse
      by (apply Hfree, list_elem_of_lookup; eauto).
    rewrite (totalForce_pull bodies i b Hb). reflexivity.
  - rewrite vsum_map_add, vsum_map_scale. unfold F.
    rewrite total_forces_cancel, vscale_zero. apply vadd_zero_r.
Qed.

Lemma iter_substep_free (dt : R) (n : nat) (bodies : list (Body R)) :
  Forall (fun b => isFixed b = false) bodies ->
  Forall (fun b => isFixed b = false) (Nat.iter n (substep dt) bodies).
Proof.
  intros Hfree.
  assert (Hflags : Forall (fun f : bool => f = false)
                     (isFixed <$> Nat.iter n (substep dt) bodies)).
  { rewrite iter_substep_field by reflexivity.
    apply Forall_fmap. exact Hfree. }
  apply Forall_fmap in Hflags. exact Hflags.
Qed.

Lemma Q2R_G : @G R _ = 500.
Proof. unfold G. reals. apply Q2R_lit. Qed.

Lemma lengthSqr_nonneg (d : Vector3 R) : 0 <= Vector3LengthSqr d.
Proof. unfold Vector3LengthSqr. reals. nra. Qed.

Lemma lengthSqr_zero (d : Vector3 R) :
  Vector3LengthSqr d = 0 -> d = mkVector3 0 0 0.
Proof.
  unfold Vector3LengthSqr. reals. intros Hs.
  apply vector3_eq; simpl; nra.
Qed.

Lemma subtract_zero (p q : Vector3 R) :
  Vector3Subtract q p = mkVector3 0 0 0 -> p = q.
Proof.
  unfold Vector3Subtract. reals. intros Hd.
  injection Hd as Hx Hy Hz. apply vector3_eq; lra.
Qed.

(** The direction [Vector3Normalize] returns for a vector that is not zero. *)
Lemma normalize_nonzero (d : Vector3 R) :
  0 < Vector3LengthSqr d ->
  Vector3Normalize d
  = Vector3Scale d (/ sqrt (Vector3LengthSqr d))
    /\ 0 < sqrt (Vector3LengthSqr d).
Proof.
  intros Hs. pose proof (sqrt_lt_R0 _ Hs) as Hlen. split; [|exact Hlen].
  unfold Vector3Normalize, Vector3LengthSqr in *. reals.
  unfold Reqb. destruct (Req_dec_T _ _) as [Heq|_].
  - rewrite Q2R_lit in Heq. lra.
  - simpl. unfold Vector3Scale. reals. rewrite Q2R_lit.
    apply vector3_eq; simpl; unfold Rdiv; ring.
Qed.


End RealIntegrator.

(** X3. In exact arithmetic, a whole frame of physics (paused or not, at any
    time speed) leaves the total momentum unchanged when no body is
    fixed. *)
Theorem physics_conserves_momentum
    (isPaused : bool) (timeSpeed : R) (bodies : list (Body R)) :
  Forall (fun b => isFixed b = false) bodies ->
  momentum (physics isPaused timeSpeed bodies) = momentum bodies.
Proof.
  intros Hfree. unfold physics, physicsWith.
  destruct (negb isPaused); [|reflexivity].
  generalize SUBSTEPS. intros n.
  induction n as [|n IH]; [reflexivity|].
  etransitivity; [|exact IH].
  apply (substep_momentum _ (Nat.iter n _ bodies)).
  apply (iter_substep_free _ n bodies). exact Hfree.
Qed.

Lemma physics_conserves_momentum_witness :
  Forall (fun b => isFixed b = false) Inputs.freePair
  /\ momentum (physics false 1%R Inputs.freePair) = momentum Inputs.freePair.
Proof.
  assert (Hfree : Forall (fun b : Body R => isFixed b = false) Inputs.freePair)
    by (repeat constructor).
  split; [exact Hfree|].
  exact (physics_conserves_momentum false 1%R Inputs.freePair Hfree).
Defined.



(** X5. Newton's third law, in exact arithmetic: the pull of body [j] on
    body [i] is the opposite of the pull of [i] on [j], for all positions,
    masses and radii. *)
Theorem pulls_are_opposite (bi bj : Body R) :
  pairForce bi bj = vneg (pairForce bj bi).
Proof. apply pairForce_antisymmetric. Qed.

(** X6. Gravity attracts: in exact arithmetic, for masses that are not
    negative, the pull on body [i] has a non-negative scalar product with
    the direction from [i] to [j]. *)
Theorem pull_points_to_the_other_body (bi bj : Body R) :
  (0 <= mass bi)%R -> (0 <= mass bj)%R ->
  (0 <= Main.Vector3DotProduct (pairForce bi bj)
          (Vector3Subtract (position bj) (position bi)))%R.
Proof.
  intros Hi Hj. unfold pairForce.
  set (d := Vector3Subtract (position bj) (position bi)).
  pose proof (lengthSqr_nonneg d) as Hs.
  destruct (Req_dec (Vector3LengthSqr d) 0) as [Hz|Hnz].
  - rewrite (lengthSqr_zero d Hz).
    unfold Main.Vector3DotProduct, Vector3Scale. reals. simpl.
    lra.
  - assert (Hpos : (0 < Vector3LengthSqr d)%R) by lra.
    destruct (normalize_nonzero d Hpos) as [-> Hlen].
    pose proof (Rinv_0_lt_compat _ Hpos) as Hinv.
    pose proof (Rinv_0_lt_compat _ Hlen) as Hil.
    unfold Main.Vector3DotProduct, Vector3Scale. reals. rewrite Q2R_G.
    set (f := (500 * mass bi * mass bj / Vector3LengthSqr d)%R).
    assert (Hf : (0 <= f)%R).
    { unfold f, Rdiv. apply Rmult_le_pos; [|lra].
      apply Rmult_le_pos; [|exact Hj]. apply Rmult_le_pos; lra. }
    replace (vx d * / sqrt (Vector3LengthSqr d) * f * vx d
             + vy d * / sqrt (Vector3LengthSqr d) * f * vy d
             + vz d * / sqrt (Vector3LengthSqr d) * f * vz d)%R
      with (Vector3LengthSqr d * (/ sqrt (Vector3LengthSqr d) * f))%R
      by (unfold Vector3LengthSqr; reals; ring).
    apply Rmult_le_pos; [lra|]. apply Rmult_le_pos; lra.
Qed.

Lemma pull_points_to_the_other_body_witness :
  (0 <= 100)%R /\ (0 <= 5000)%R
  /\ (0 <= Main.Vector3DotProduct
            (pairForce (mkBody (mkVector3 50 0 0) (mkVector3 0 0 310) 100 3 SKYBLUE false)
                       (mkBody (mkVector3 0 0 0) (mkVector3 0 0 0) 5000 10 GOLD true))
            (Vector3Subtract (mkVector3 0 0 0) (mkVector3 50 0 0)))%R.
Proof.
  assert (H1 : (0 <= 100)%R) by lra. assert (H2 : (0 <= 5000)%R) by lra.
  split; [exact H1|]. split; [exact H2|].
  exact (pull_points_to_the_other_body
           (mkBody (mkVector3 50 0 0) (mkVector3 0 0 310) 100 3 SKYBLUE false)%R
           (mkBody (mkVector3 0 0 0) (mkVector3 0 0 0) 5000 10 GOLD true)%R H1 H2).
Defined.

(** X7. The inverse-square law as the code has it, in exact arithmetic: for
    two bodies at different positions, with masses that are not negative,
    the length of the pull is [G * m_i * m_j / distSq], whatever the radii
    (the clamp plays no part). *)
Theorem pull_has_inverse_square_length (bi bj : Body R) :
  (0 <= mass bi)%R -> (0 <= mass bj)%R -> position bi <> position bj ->
  Vector3Length (pairForce bi bj)
  = (G * mass bi * mass bj
     / Vector3LengthSqr (Vector3Subtract (position bj) (position bi)))%R.
Proof.
  intros Hi Hj Hne. unfold pairForce.
  set (d := Vector3Subtract (position bj) (position bi)).
  pose proof (lengthSqr_nonneg d) as Hs.
  assert (Hpos : (0 < Vector3LengthSqr d)%R).
  { destruct (Req_dec (Vector3LengthSqr d) 0) as [Hz|Hnz]; [|lra].
    exfalso. apply Hne. apply subtract_zero. apply lengthSqr_zero. exact Hz. }
  destruct (normalize_nonzero d Hpos) as [-> Hlen].
  pose proof (Rinv_0_lt_compat _ Hpos) as Hinv.
  reals. rewrite Q2R_G.
  set (f := (500 * mass bi * mass bj / Vector3LengthSqr d)%R).
  assert (Hf : (0 <= f)%R).
  { unfold f, Rdiv. apply Rmult_le_pos; [|lra].
    apply Rmult_le_pos; [|exact Hj]. apply Rmult_le_pos; lra. }
  unfold Vector3Length, Vector3Scale. reals.
  pose proof (sqrt_sqrt _ Hs) as Hsq.
  set (L := sqrt (Vector3LengthSqr d)) in *.
  replace (vx d * / L * f * (vx d * / L * f) + vy d * / L * f * (vy d * / L * f)
           + vz d * / L * f * (vz d * / L * f))%R
    with (f * f)%R.
  - apply sqrt_square. exact Hf.
  - transitivity (f * f * (Vector3LengthSqr d * (/ L * / L)))%R.
    + rewrite <- Hsq. field. lra.
    + unfold Vector3LengthSqr. reals. ring.
Qed.

Lemma pull_has_inverse_square_length_witness :
  (0 <= 100)%R /\ (0 <= 5000)%R
  /\ mkVector3 50%R 0%R 0%R <> mkVector3 0%R 0%R 0%R
  /\ Vector3Length
       (pairForce (mkBody (mkVector3 50 0 0) (mkVector3 0 0 310) 100 3 SKYBLUE false)
                  (mkBody (mkVector3 0 0 0) (mkVector3 0 0 0) 5000 10 GOLD true))%R
     = (G * 100 * 5000
        / Vector3LengthSqr (Vector3Subtract (mkVector3 0 0 0) (mkVector3 50 0 0)))%R.
Proof.
  assert (H1 : (0 <= 100)%R) by lra. assert (H2 : (0 <= 5000)%R) by lra.
  assert (H3 : mkVector3 50%R 0%R 0%R <> mkVector3 0%R 0%R 0%R).
  { intros Heq. injection Heq as Hx. lra. }
  split; [exact H1|]. split; [exact H2|]. split; [exact H3|].
  exact (pull_has_inverse_square_length
           (mkBody (mkVector3 50 0 0) (mkVector3 0 0 310) 100 3 SKYBLUE false)%R
           (mkBody (mkVector3 0 0 0) (mkVector3 0 0 0) 5000 10 GOLD true)%R H1 H2 H3).
Defined.

(** ** More about the curvature sampler *)

(** X8. Bodies the sampler's own test [mass < 50] finds light can be
    dropped from the registry without changing the sampled height, for
    every scalar type (binary32 included). *)
Theorem light_bodies_do_not_bend {A : Type} `{Scalar A}
    (x z : A) (bodies : list (Body A)) :
  GetSpacetimeCurve x z bodies
  = GetSpacetimeCurve x z
      (List.filter (fun b => negb (fltb (mass b) (flit 50))) bodies).
Proof.
  unfold GetSpacetimeCurve. generalize (fneg (flit 15)). intros y. revert y.
  induction bodies as [|b bodies IH]; intros y; simpl; [reflexivity|].
  destruct (fltb (mass b) (flit 50)) eqn:Hlight; simpl.
  - unfold curveStep at 2. rewrite Hlight. apply IH.
  - apply IH.
Qed.

Section RealCurveMore.
Import Exact.
Local Open Scope R_scope.

Lemma curve_is_curveSpec (x z : R) (bodies : list (Body R)) :
  GetSpacetimeCurve x z bodies = curveSpec x z bodies.
Proof.
  unfold GetSpacetimeCurve, curveSpec. rewrite curve_fold. reals.
  rewrite Q2R_lit. reflexivity.
Qed.

Lemma heavyEnough_true (b : Body R) : heavyEnough b = true -> 50 <= mass b.
Proof. unfold heavyEnough. destruct (Rle_dec 50 (mass b)); [tauto|discriminate]. Qed.

Lemma softened_distance_pos (x z : R) (b : Body R) :
  60 <= (x - vx (position b)) * (x - vx (position b))
        + (z - vz (position b)) * (z - vz (position b)) + 60.
Proof.
  pose proof (Rle_0_sqr (x - vx (position b))) as Hx.
  pose proof (Rle_0_sqr (z - vz (position b))) as Hz.
  unfold Rsqr in Hx, Hz. lra.
Qed.

Lemma depression_nonneg (x z : R) (b : Body R) :
  50 <= mass b -> 0 <= depression x z b.
Proof.
  intros Hm. unfold depression.
  apply Rmin_glb; [lra|].
  assert (Hnum : 0 <= mass b * 0.5) by lra.
  pose proof (softened_distance_pos x z b) as Hden.
  unfold Rdiv. apply Rmult_le_pos; [exact Hnum|].
  apply Rlt_le, Rinv_0_lt_compat. lra.
Qed.

Lemma depressions_bounds (x z : R) (bodies : list (Body R)) :
  0 <= fold_right Rplus 0 (map (depression x z) (List.filter heavyEnough bodies))
    <= 40 * INR (length bodies).
Proof.
  induction bodies as [|b bodies IH].
  - simpl. lra.
  - change (length (b :: bodies)) with (S (length bodies)). rewrite S_INR.
    simpl. destruct (heavyEnough b) eqn:Hb; simpl; [|lra].
    pose proof (depression_nonneg x z b (heavyEnough_true b Hb)).
    pose proof (depression_le_40 x z b). lra.
Qed.

End RealCurveMore.

(** X9. In exact arithmetic the sampled height is never above -15 and
    never below [-15 - 40 * n] for a registry of [n] bodies, whatever their
    masses and positions. *)
Theorem curve_bounds (x z : R) (bodies : list (Body R)) :
  (-15 - 40 * INR (length bodies) <= GetSpacetimeCurve x z bodies <= -15)%R.
Proof.
  rewrite curve_is_curveSpec. unfold curveSpec.
  pose proof (depressions_bounds x z bodies). lra.
Qed.

(** X10. In exact arithmetic the sampled height does not depend on the
    order of the bodies in the registry. *)
Theorem curve_ignores_registry_order (x z : R) (bodies bodies' : list (Body R)) :
  Permutation bodies bodies' ->
  GetSpacetimeCurve x z bodies = GetSpacetimeCurve x z bodies'.
Proof.
  intros Hperm. rewrite !curve_is_curveSpec. unfold curveSpec. f_equal.
  induction Hperm as [|b l l' _ IH|a b l|l l' l'' _ IH1 _ IH2].
  - reflexivity.
  - simpl. destruct (heavyEnough b); simpl; lra.
  - simpl. destruct (heavyEnough a), (heavyEnough b); simpl; lra.
  - lra.
Qed.

Lemma curve_ignores_registry_order_witness :
  Permutation Inputs.freePair (rev Inputs.freePair)
  /\ GetSpacetimeCurve 4%R 8%R Inputs.freePair
     = GetSpacetimeCurve 4%R 8%R (rev Inputs.freePair).
Proof.
  assert (Hperm : Permutation Inputs.freePair (rev Inputs.freePair))
    by apply Permutation_rev.
  split; [exact Hperm|].
  exact (curve_ignores_registry_order 4%R 8%R _ _ Hperm).
Defined.

(** X11. In exact arithmetic, adding a body to the registry never raises
    the sampled height anywhere, and lowers it by at most 40. *)
Theorem new_body_lowers_curve_by_at_most_40
    (x z : R) (bodies : list (Body R)) (b : Body R) :
  (GetSpacetimeCurve x z bodies - 40
   <= GetSpacetimeCurve x z (bodies ++ [b])
   <= GetSpacetimeCurve x z bodies)%R.
Proof.
  unfold GetSpacetimeCurve. rewrite fold_left_app. cbn [fold_left].
  rewrite curveStep_spec.
  destruct (heavyEnough b) eqn:Hb; [|lra].
  pose proof (depression_nonneg x z b (heavyEnough_true b Hb)).
  pose proof (depression_le_40 x z b). lra.
Qed.

(** X12. In exact arithmetic, the well of a single body is deepest at the
    body itself: no point is sampled lower than the body's own [(x, z)]. *)
Theorem single_body_well_is_deepest_at_the_body (x z : R) (b : Body R) :
  (GetSpacetimeCurve (vx (position b)) (vz (position b)) [b]
   <= GetSpacetimeCurve x z [b])%R.
Proof.
  unfold GetSpacetimeCurve. cbn [fold_left]. rewrite !curveStep_spec.
  destruct (heavyEnough b) eqn:Hb; [|lra].
  apply heavyEnough_true in Hb.
  assert (Hle : (depression x z b
                 <= depression (vx (position b)) (vz (position b)) b)%R).
  { unfold depression. apply Rle_min_compat_l.
    assert (Hnum : (0 <= mass b * 0.5)%R) by lra.
    pose proof (softened_distance_pos x z b) as Hden.
    unfold Rdiv. apply Rmult_le_compat_l; [exact Hnum|].
    apply Rinv_le_contravar; lra. }
  lra.
Qed.

(** ** [GetMouseOnPlane] *)

(** X13. In exact arithmetic the point [GetMouseOnPlane] returns always
    has [y = 0], for every ray: it is either the zero vector or the point
    where the ray meets the plane. *)
Theorem mouse_point_is_on_the_plane (ray : Ray R) :
  vy (GetMouseOnPlane ray) = 0%R.
Proof.
  unfold GetMouseOnPlane. reals. rewrite vzero_R.
  destruct (Exact.Rltb (Rabs (vy (ray_direction ray))) (Q2R (1 # 1000))) eqn:Hpar;
    [reflexivity|].
  apply Rltb_false in Hpar.
  assert (Hdy : vy (ray_direction ray) <> 0%R).
  { intros Hz. rewrite Hz, Rabs_R0 in Hpar. unfold Q2R in Hpar. simpl in Hpar. lra. }
  destruct (Exact.Rltb _ _); [reflexivity|].
  unfold Vector3Add, Vector3Scale. reals. field. exact Hdy.
Qed.

(** ** More about the builder *)

Lemma builderUpdate_cases {A : Type} `{Scalar A}
    (isCreateMode touching : bool) (mouse : MouseButton)
    (mousePos3D : Vector3 A) (newPlanetMass : A)
    (builder : PlanetBuilder A) (bodies : list (Body A)) :
  let result := builderUpdate isCreateMode touching mouse mousePos3D newPlanetMass
                  (builder, bodies) in
  snd result = bodies
  \/ (isCreateMode = true /\ touching = false /\ released mouse = true
      /\ exists bld diff,
           snd result = bodies ++ [newBody bld diff newPlanetMass]
           /\ fltb (flit 2) (Vector3Length diff) = true).
Proof.
  unfold builderUpdate.
  destruct isCreateMode, touching; cbn [andb negb snd]; try (left; reflexivity).
  destruct (released mouse); cbn [andb]; [|left; reflexivity].
  match goal with
  | |- context [if active ?bld then _ else _] =>
      destruct (active bld); [set (b0 := bld)|left; reflexivity]
  end.
  cbn [snd].
  match goal with
  | |- context [if ?c then _ else _] => destruct c eqn:Hlong; [|left; reflexivity]
  end.
  right. split_and!; try reflexivity. eexists _, _. split; [reflexivity|exact Hlong].
Qed.

(** X14. For every scalar type: one pass of the creation logic either
    leaves the registry as it is, or (only in create mode, outside the UI
    bands, on a release) appends exactly one body at the end, which is not
    fixed and has the selected mass; the bodies already there keep their
    index and are not touched. *)
Theorem builder_appends_at_most_one_free_body {A : Type} `{Scalar A}
    (isCreateMode touching : bool) (mouse : MouseButton)
    (mousePos3D : Vector3 A) (newPlanetMass : A)
    (builder : PlanetBuilder A) (bodies : list (Body A)) :
  let result := builderUpdate isCreateMode touching mouse mousePos3D newPlanetMass
                  (builder, bodies) in
  snd result = bodies
  \/ (isCreateMode = true /\ touching = false /\ released mouse = true
      /\ exists b, snd result = bodies ++ [b]
                   /\ isFixed b = false /\ mass b = newPlanetMass).
Proof.
  intros result.
  destruct (builderUpdate_cases isCreateMode touching mouse mousePos3D
              newPlanetMass builder bodies)
    as [Hsame|(Hc & Ht & Hr & bld & diff & Hnew & _)].
  - left. exact Hsame.
  - right. split_and!; try assumption.
    exists (newBody bld diff newPlanetMass). split_and!; [exact Hnew|reflexivity..].
Qed.

Section RealGesture.
Import Exact.
Local Open Scope R_scope.

Lemma last_cons_default {X : Type} (q e : X) (qs : list X) :
  List.last (q :: qs) e = List.last qs q.
Proof.
  revert q e. induction qs as [|v qs IH]; intros q e; [reflexivity|].
  change (List.last (q :: v :: qs) e) with (List.last (v :: qs) e).
  rewrite (IH v e), (IH v q). reflexivity.
Qed.

(** Frames with the button held move [endPos] to the last point. *)
Lemma hold_frames (m : R) (p e : Vector3 R) (qs : list (Vector3 R))
    (bodies : list (Body R)) :
  fold_left (fun st q => builderUpdate true false (mkMouse false true false) q m st)
            qs (mkBuilder true p e, bodies)
  = (mkBuilder true p (List.last qs e), bodies).
Proof.
  revert e. induction qs as [|q qs IH]; intros e; [reflexivity|].
  cbn [fold_left].
  change (builderUpdate true false (mkMouse false true false) q m
            (mkBuilder true p e, bodies))
    with (mkBuilder true p q, bodies).
  rewrite IH, last_cons_default. reflexivity.
Qed.

Lemma length_scale_5 (d : Vector3 R) :
  Vector3Length (Vector3Scale d 5) = 5 * Vector3Length d.
Proof.
  unfold Vector3Length, Vector3Scale. reals.
  replace (vx d * 5 * (vx d * 5) + vy d * 5 * (vy d * 5) + vz d * 5 * (vz d * 5))
    with (5 * 5 * (vx d * vx d + vy d * vy d + vz d * vz d)) by ring.
  rewrite sqrt_mult_alt by lra. rewrite sqrt_square by lra. reflexivity.
Qed.

Lemma length_of_zero_difference (p : Vector3 R) :
  Vector3Length (Vector3Subtract p p) = 0.
Proof.
  unfold Vector3Length, Vector3Subtract. reals.
  replace ((vx p - vx p) * (vx p - vx p) + (vy p - vy p) * (vy p - vy p)
           + (vz p - vz p) * (vz p - vz p)) with 0 by ring.
  apply sqrt_0.
Qed.

End RealGesture.

(** X15. In exact arithmetic, a complete gesture in create mode outside the
    UI bands: a press at [p], any number of frames with the button held at
    the points [qs], then the release.  With [e] the last held point (or [p]
    if there was none), the registry gets one new body at [p] with velocity
    [(e - p) * 5] when [|e - p| > 2], and stays as it was when
    [|e - p| <= 2]; the builder ends inactive. *)
Theorem full_gesture_throws_from_press_point
    (m : R) (p r : Vector3 R) (qs : list (Vector3 R))
    (builder : PlanetBuilder R) (bodies : list (Body R)) :
  let e := List.last qs p in
  let st1 := builderUpdate true false (mkMouse true true false) p m (builder, bodies) in
  let st2 := fold_left
               (fun st q => builderUpdate true false (mkMouse false true false) q m st)
               qs st1 in
  let st3 := builderUpdate true false (mkMouse false false true) r m st2 in
  active (fst st3) = false
  /\ ((Vector3Length (Vector3Subtract e p) > 2)%R ->
      exists b, snd st3 = bodies ++ [b]
                /\ position b = p
                /\ velocity b = Vector3Scale (Vector3Subtract e p) 5%R
                /\ mass b = m)
  /\ ((Vector3Length (Vector3Subtract e p) <= 2)%R -> snd st3 = bodies).
Proof.
  intros e st1 st2 st3.
  assert (H1 : st1 = (mkBuilder true p p, bodies)) by reflexivity.
  assert (H2 : st2 = (mkBuilder true p e, bodies)).
  { unfold st2. rewrite H1. apply hold_frames. }
  assert (H3 : st3 = (mkBuilder false p e,
                      if Exact.Rltb 2 (Vector3Length (Vector3Subtract e p))
                      then bodies ++ [newBody (mkBuilder true p e)
                                        (Vector3Subtract e p) m]
                      else bodies)).
  { unfold st3. rewrite H2.
    rewrite (builderUpdate_release r m (mkBuilder true p e) bodies eq_refl).
    cbn [startPos endPos]. reals. rewrite Q2R_lit. reflexivity. }
  rewrite H3. cbn [fst snd active]. split_and!.
  - reflexivity.
  - intros Hlong. apply Rltb_true in Hlong. rewrite Hlong.
    exists (newBody (mkBuilder true p e) (Vector3Subtract e p) m).
    destruct (newBody_fields (mkBuilder true p e) (Vector3Subtract e p) m)
      as (Hp & Hv & Hm & _).
    split_and!; [reflexivity|exact Hp|exact Hv|exact Hm].
  - intros Hshort. apply Rltb_false in Hshort. rewrite Hshort. reflexivity.
Qed.

Lemma full_gesture_throws_from_press_point_witness :
  (Vector3Length
     (Vector3Subtract (List.last [mkVector3 3 0 0]%R (mkVector3 0 0 0)%R)
                      (mkVector3 0 0 0)%R) > 2)%R
  /\ exists b : Body R,
       snd (builderUpdate true false (mkMouse false false true) (mkVector3 3 0 0)%R 200%R
              (fold_left
                 (fun st q =>
                    builderUpdate true false (mkMouse false true false) q 200%R st)
                 [mkVector3 3 0 0]%R
                 (builderUpdate true false (mkMouse true true false)
                    (mkVector3 0 0 0)%R 200%R
                    (mkBuilder false (mkVector3 9 9 9) (mkVector3 9 9 9), [])%R)))
       = [] ++ [b]
       /\ position b = (mkVector3 0 0 0)%R
       /\ velocity b
          = Vector3Scale
              (Vector3Subtract (List.last [mkVector3 3 0 0]%R (mkVector3 0 0 0)%R)
                               (mkVector3 0 0 0)%R) 5%R
       /\ mass b = 200%R.
Proof.
  split; [exact dragged_length|].
  exact (proj1 (proj2 (full_gesture_throws_from_press_point
                         200%R (mkVector3 0 0 0)%R (mkVector3 3 0 0)%R
                         [mkVector3 3 0 0]%R
                         (mkBuilder false (mkVector3 9 9 9) (mkVector3 9 9 9))%R []))
               dragged_length).
Defined.

(** X16. In exact arithmetic: a press that the creation logic handles
    (create mode, pointer outside the UI bands) followed directly by the
    release creates no body, whatever the points under the pointer, the
    selected mass, the earlier builder state, and whether or not the release
    frame is in create mode or in a UI band.  The builder ends inactive when
    the release is handled too, and stays active otherwise. *)
Theorem tap_creates_no_body
    (isCreateMode2 touching2 : bool) (m : R) (p r : Vector3 R)
    (builder : PlanetBuilder R) (bodies : list (Body R)) :
  let st1 := builderUpdate true false (mkMouse true true false) p m (builder, bodies) in
  let st2 := builderUpdate isCreateMode2 touching2 (mkMouse false false true) r m st1 in
  snd st2 = bodies /\ active (fst st2) = negb (isCreateMode2 && negb touching2).
Proof.
  intros st1 st2.
  assert (H1 : st1 = (mkBuilder true p p, bodies)) by reflexivity.
  unfold st2. rewrite H1.
  destruct isCreateMode2, touching2; try (split; reflexivity).
  rewrite (builderUpdate_release r m (mkBuilder true p p) bodies eq_refl).
  cbn [fst snd active startPos endPos andb negb].
  rewrite length_of_zero_difference. reals. rewrite Q2R_lit.
  replace (Exact.Rltb 2 0) with false; [split; reflexivity|].
  symmetry. apply Rltb_false. lra.
Qed.

(** X17. In exact arithmetic, every body the creation logic appends has a
    radius of at least 1 and a speed of more than 10, five times the length
    of the drag. *)
Theorem created_body_radius_and_speed
    (isCreateMode touching : bool) (mouse : MouseButton)
    (mousePos3D : Vector3 R) (newPlanetMass : R)
    (builder : PlanetBuilder R) (bodies : list (Body R)) (b : Body R) :
  snd (builderUpdate isCreateMode touching mouse mousePos3D newPlanetMass
         (builder, bodies)) = bodies ++ [b] ->
  (1 <= radius b)%R /\ (10 < Vector3Length (velocity b))%R.
Proof.
  intros Hnew.
  destruct (builderUpdate_cases isCreateMode touching mouse mousePos3D
              newPlanetMass builder bodies)
    as [Hsame|(_ & _ & _ & bld & diff & Happ & Hlong)].
  - exfalso. rewrite Hsame in Hnew. apply (f_equal length) in Hnew.
    rewrite length_app in Hnew. simpl in Hnew. lia.
  - rewrite Happ in Hnew. apply app_inv_head in Hnew. injection Hnew as <-.
    destruct (newBody_fields bld diff newPlanetMass) as (_ & Hv & _ & Hr & _).
    rewrite Hr, Hv, length_scale_5. split; [apply Rmax_l|].
    reals. rewrite Q2R_lit in Hlong. apply Rltb_true in Hlong. lra.
Qed.

Lemma created_body_radius_and_speed_witness :
  snd (builderUpdate true false (mkMouse false false true) (mkVector3 3 0 0)%R
         2000%R (Inputs.dragged, []))
    = [] ++ [newBody Inputs.dragged
               (Vector3Subtract (endPos Inputs.dragged) (startPos Inputs.dragged))
               2000%R]
  /\ (1 <= radius (newBody Inputs.dragged
                     (Vector3Subtract (endPos Inputs.dragged)
                                      (startPos Inputs.dragged)) 2000%R))%R.
Proof.
  assert (Hnew :
    snd (builderUpdate true false (mkMouse false false true) (mkVector3 3 0 0)%R
           2000%R (Inputs.dragged, []))
    = [] ++ [newBody Inputs.dragged
               (Vector3Subtract (endPos Inputs.dragged) (startPos Inputs.dragged))
               2000%R]).
  { rewrite (builderUpdate_release _ _ Inputs.dragged [] eq_refl). cbn [snd].
    pose proof dragged_length as Hlong. apply Rltb_true in Hlong.
    reals. rewrite Q2R_lit. rewrite Hlong. reflexivity. }
  split; [exact Hnew|].
  exact (proj1 (created_body_radius_and_speed _ _ _ _ _ _ _ _ Hnew)).
Defined.

Lemma slider_range_real_witness :
  (30 < 60)%Z /\ (120 < 1060 <= 1080 - 20)%Z
  /\ (10 < sliderUpdate true 1060 30 1080 200 <= 2010)%R.
Proof.
  assert (Hy : (30 < 60)%Z) by lia.
  assert (Hx : (120 < 1060 <= 1080 - 20)%Z) by lia.
  split; [exact Hy|]. split; [exact Hx|].
  exact (slider_range_real 1060 30 1080 200%R Hy Hx).
Defined.

(** X19. In exact arithmetic, the filled fraction of the mass bar does not
    come back to the fraction that was clicked: after the slider sets the
    mass from the click fraction [c = (mouseX - 120) / (screenW - 140)], the
    bar is filled to [c * 2000 / 1990], which at the right end of the slider
    is more than the whole bar. *)
Theorem mass_bar_overshoots_click (mouseX mouseY screenW : Z) (newPlanetMass : R) :
  (mouseY < 60)%Z -> (120 < mouseX)%Z ->
  Main.massPercent (sliderUpdate true mouseX mouseY screenW newPlanetMass)
  = ((IZR mouseX - 120) / IZR (screenW - 140) * 2000 / 1990)%R
  /\ (mouseX = screenW - 20 ->
      (1 < Main.massPercent (sliderUpdate true mouseX mouseY screenW newPlanetMass))%R)%Z.
Proof.
  intros Hy Hx.
  assert (Hfill :
    Main.massPercent (sliderUpdate true mouseX mouseY screenW newPlanetMass)
    = ((IZR mouseX - 120) / IZR (screenW - 140) * 2000 / 1990)%R).
  { unfold Main.massPercent, sliderUpdate.
    replace (mouseY <? 60)%Z with true by (symmetry; apply Z.ltb_lt; exact Hy).
    replace (120 <? mouseX)%Z with true by (symmetry; apply Z.ltb_lt; exact Hx).
    cbn [andb]. unfold ofZ. reals. rewrite !Q2R_inject_Z, !Q2R_lit.
    unfold Rdiv. replace (/ (2000 - 10))%R with (/ 1990)%R by (f_equal; lra).
    ring. }
  split; [exact Hfill|].
  intros Hend. rewrite Hfill. subst mouseX.
  replace (screenW - 20 - 140)%Z with (screenW - 160)%Z in * by lia.
  rewrite !minus_IZR.
  apply IZR_lt in Hx. rewrite minus_IZR in Hx.
  replace (IZR screenW - 20 - 120)%R with (IZR screenW - 140)%R by ring.
  unfold Rdiv. rewrite Rinv_r by lra. lra.
Qed.

Lemma mass_bar_overshoots_click_witness :
  (30 < 60)%Z /\ (120 < 1060)%Z /\ 1060%Z = (1080 - 20)%Z
  /\ (1 < Main.massPercent (sliderUpdate true 1060 30 1080 200))%R.
Proof.
  assert (Hy : (30 < 60)%Z) by lia.
  assert (Hx : (120 < 1060)%Z) by lia.
  split; [exact Hy|]. split; [exact Hx|]. split; [reflexivity|].
  exact (proj2 (mass_bar_overshoots_click 1060 30 1080 200%R Hy Hx) eq_refl).
Defined.

(** ** One frame of the main loop, and runs of frames *)

Section FrameFacts.
Context {A : Type} `{Scalar A}.
Import Main.

(** The part of [wellFormed] that speaks of the registry and the target. *)
Lemma wellFormed_unfold (s : State A) :
  wellFormed s <->
  bodies s !! 0%nat = Some sun
  /\ Forall (fun b => isFixed b = false) (drop 1 (bodies s))
  /\ (-1 <= cameraTarget s < Z.of_nat (length (bodies s)))%Z.
Proof. reflexivity. Qed.

Lemma wellFormed_same (s s' : State A) :
  bodies s' = bodies s -> cameraTarget s' = cameraTarget s ->
  wellFormed s -> wellFormed s'.
Proof. unfold wellFormed. intros -> ->. tauto. Qed.

Lemma initialState_wellFormed : wellFormed (initialState (A := A)).
Proof.
  unfold wellFormed, initialState, initialBodies.
  cbn [bodies cameraTarget length drop].
  split_and!; [reflexivity| |lia|simpl; lia].
  repeat constructor.
Qed.

Lemma cameraLogic_wellFormed (s : State A) :
  wellFormed s ->
  exists s', cameraLogic s = Some s'
             /\ bodies s' = bodies s /\ timeSpeed s' = timeSpeed s
             /\ wellFormed s'.
Proof.
  intros (Hsun & Hfree & Hlo & Hhi). unfold cameraLogic.
  destruct (negb (cameraTarget s =? -1)%Z
            && (cameraTarget s <? Z.of_nat (length (bodies s)))%Z) eqn:Hfollow.
  - apply andb_true_iff in Hfollow as [Hne Hlt].
    apply negb_true_iff, Z.eqb_neq in Hne.
    replace (cameraTarget s <? 0)%Z with false by (symmetry; apply Z.ltb_ge; lia).
    destruct (lookup_lt_is_Some_2 (bodies s) (Z.to_nat (cameraTarget s)))
      as [b Hb]; [lia|].
    rewrite Hb. eexists. split; [reflexivity|].
    unfold wellFormed. cbn [bodies cameraTarget timeSpeed].
    split_and!; try reflexivity; try assumption; lia.
  - eexists. split; [reflexivity|].
    unfold wellFormed. cbn [bodies cameraTarget timeSpeed].
    apply lookup_lt_Some in Hsun as Hlen.
    split_and!; try reflexivity; try assumption; lia.
Qed.

Lemma orbit_same (inp : Input A) (s : State A) :
  bodies (orbit inp s) = bodies s
  /\ cameraTarget (orbit inp s) = cameraTarget s
  /\ timeSpeed (orbit inp s) = timeSpeed s.
Proof.
  unfold orbit.
  destruct (negb (is2D s) && negb (isCreateMode s)
            && negb (touchingUI (mouseY inp) (screenH inp)));
    split_and!; reflexivity.
Qed.

Lemma builder_cases_for_frame (inp : Input A) (s : State A) :
  let st := builderUpdate (isCreateMode s)
              (touchingUI (mouseY inp) (screenH inp)) (button inp)
              (GetMouseOnPlane (mouseRay inp (camera s))) (newPlanetMass s)
              (builder s, bodies s) in
  snd st = bodies s
  \/ exists b, snd st = bodies s ++ [b] /\ isFixed b = false.
Proof.
  intros st. unfold st.
  destruct (builderUpdate_cases (isCreateMode s)
              (touchingUI (mouseY inp) (screenH inp)) (button inp)
              (GetMouseOnPlane (mouseRay inp (camera s))) (newPlanetMass s)
              (builder s) (bodies s))
    as [Hsame|(_ & _ & _ & bld & diff & Hnew & _)].
  - left. exact Hsame.
  - right. eexists. split; [exact Hnew|reflexivity].
Qed.

Lemma creation_bodies (inp : Input A) (s : State A) :
  cameraTarget (creation inp s) = cameraTarget s
  /\ timeSpeed (creation inp s) = timeSpeed s
  /\ (bodies (creation inp s) = bodies s
      \/ exists b, bodies (creation inp s) = bodies s ++ [b]
                   /\ isFixed b = false).
Proof.
  unfold creation. cbn [cameraTarget timeSpeed bodies].
  split_and!; try reflexivity.
  destruct (builder_cases_for_frame inp s) as [Hsame|[b [Hnew Hb]]].
  - left. exact Hsame.
  - right. exists b. split; assumption.
Qed.

Lemma simulate_wellFormed (s : State A) :
  wellFormed s -> wellFormed (simulate s).
Proof.
  intros (Hsun & Hfree & Hct). unfold wellFormed, simulate.
  cbn [bodies cameraTarget]. rewrite length_physics. split_and!.
  - apply physics_fixed_lookup; [exact Hsun|reflexivity].
  - assert (Hflags : Forall (fun f : bool => f = false)
                       (drop 1 (isFixed <$> physics (isPaused s) (timeSpeed s)
                                              (bodies s)))).
    { rewrite physics_field by reflexivity.
      rewrite <- fmap_drop. apply Forall_fmap. exact Hfree. }
    rewrite <- fmap_drop in Hflags. apply Forall_fmap in Hflags. exact Hflags.
  - apply Hct.
  - apply Hct.
Qed.

Lemma creation_wellFormed (inp : Input A) (s : State A) :
  wellFormed s -> wellFormed (creation inp s).
Proof.
  intros (Hsun & Hfree & Hct).
  destruct (creation_bodies inp s) as (Hc & _ & [Hb|[b [Hb Hfix]]]).
  - apply (wellFormed_same s); [exact Hb|exact Hc|].
    exact (conj Hsun (conj Hfree Hct)).
  - unfold wellFormed. rewrite Hb, Hc, length_app. cbn [length].
    apply lookup_lt_Some in Hsun as Hlen.
    split_and!.
    + rewrite lookup_app_l by exact Hlen. exact Hsun.
    + rewrite drop_app_le by lia. apply Forall_app. split; [exact Hfree|].
      repeat constructor. exact Hfix.
    + apply Hct.
    + lia.
Qed.

Lemma resetButton_wellFormed (inp : Input A) (s : State A) :
  wellFormed s -> wellFormed (resetButton inp s).
Proof.
  intros Hwf. unfold resetButton.
  destruct (GuiButton inp (rowButton inp 3)); [|exact Hwf].
  unfold wellFormed, resetBodies. cbn [bodies cameraTarget length drop].
  split_and!; [reflexivity|constructor|lia|simpl; lia].
Qed.

Lemma nextTarget_range (cameraTarget : Z) (size : nat) :
  (-1 <= cameraTarget)%Z -> (0 < size)%nat ->
  (-1 <= nextTarget cameraTarget size < Z.of_nat size)%Z.
Proof.
  intros Hlo Hsize. unfold nextTarget.
  destruct (Z.of_nat size <=? cameraTarget + 1)%Z eqn:Hwrap.
  - lia.
  - apply Z.leb_gt in Hwrap. lia.
Qed.

Lemma camButton_wellFormed (inp : Input A) (s : State A) :
  wellFormed s -> wellFormed (camButton inp s).
Proof.
  intros Hwf. unfold camButton.
  destruct (GuiButton inp (rowButton inp 4)); [|exact Hwf].
  destruct Hwf as (Hsun & Hfree & Hct).
  unfold wellFormed. cbn [bodies cameraTarget].
  apply lookup_lt_Some in Hsun as Hlen.
  split_and!; [exact Hsun|exact Hfree|apply nextTarget_range; lia..].
Qed.

Lemma toggles_same (inp : Input A) (s : State A) :
  let s' := pauseButton inp (viewButton inp (modeButton inp (slider inp s))) in
  bodies s' = bodies s /\ cameraTarget s' = cameraTarget s
  /\ timeSpeed s' = timeSpeed s.
Proof.
  unfold pauseButton, viewButton, modeButton, slider.
  destruct (GuiButton inp (rowButton inp 0)), (GuiButton inp (rowButton inp 1)),
    (GuiButton inp (rowButton inp 2)); split_and!; reflexivity.
Qed.

Lemma speedButtons_same (inp : Input A) (s : State A) :
  bodies (speedButtons inp s) = bodies s
  /\ cameraTarget (speedButtons inp s) = cameraTarget s.
Proof. split; reflexivity. Qed.

(** A frame started in a well-formed state does not run into undefined
    behaviour and ends in a well-formed state. *)
Lemma frame_wellFormed (inp : Input A) (s : State A) :
  wellFormed s -> exists s', frame inp s = Some s' /\ wellFormed s'.
Proof.
  intros Hwf. unfold frame.
  destruct (cameraLogic_wellFormed s Hwf) as (s1 & -> & _ & _ & Hwf1).
  eexists. split; [reflexivity|].
  eapply wellFormed_same;
    [apply (proj1 (speedButtons_same _ _))|apply (proj2 (speedButtons_same _ _))|].
  apply camButton_wellFormed, resetButton_wellFormed.
  eapply wellFormed_same;
    [apply (proj1 (toggles_same _ _))
    |apply (proj1 (proj2 (toggles_same _ _)))|].
  apply simulate_wellFormed, creation_wellFormed.
  eapply wellFormed_same;
    [apply (proj1 (orbit_same _ _))
    |apply (proj1 (proj2 (orbit_same _ _)))|exact Hwf1].
Qed.

Lemma run_wellFormed (inputs : list (Input A)) (s : State A) :
  wellFormed s -> exists s', run inputs s = Some s' /\ wellFormed s'.
Proof.
  revert s. induction inputs as [|inp inputs IH]; intros s Hwf.
  - exists s. split; [reflexivity|exact Hwf].
  - cbn [run]. destruct (frame_wellFormed inp s Hwf) as (s1 & -> & Hwf1).
    apply IH. exact Hwf1.
Qed.

End FrameFacts.

(** X20. For every scalar type and every sequence of frame inputs, the loop
    started from the initial state never indexes the registry out of range
    (the run is defined), and in the state it reaches the sun is still body
    0, unchanged, every other body is free, and the camera target is -1 or
    the index of a body. *)
Theorem run_keeps_sun_first_and_target_in_range {A : Type} `{Scalar A}
    (inputs : list (Main.Input A)) :
  exists s, Main.run inputs Main.initialState = Some s
            /\ Main.bodies s !! 0%nat = Some sun
            /\ Forall (fun b => isFixed b = false) (drop 1 (Main.bodies s))
            /\ (-1 <= Main.cameraTarget s < Z.of_nat (length (Main.bodies s)))%Z.
Proof.
  destruct (run_wellFormed inputs Main.initialState initialState_wellFormed)
    as (s & Hrun & Hwf).
  exists s. split; [exact Hrun|exact Hwf].
Qed.

Section FrameEffects.
Context {A : Type} `{Scalar A}.
Import Main.

Lemma cameraLogic_Some (s s1 : State A) :
  cameraLogic s = Some s1 ->
  bodies s1 = bodies s /\ timeSpeed s1 = timeSpeed s.
Proof.
  unfold cameraLogic.
  destruct (negb (cameraTarget s =? -1)%Z
            && (cameraTarget s <? Z.of_nat (length (bodies s)))%Z).
  - destruct (cameraTarget s <? 0)%Z; [discriminate|].
    destruct (bodies s !! Z.to_nat (cameraTarget s)); [|discriminate].
    intros [= <-]. split; reflexivity.
  - intros [= <-]. split; reflexivity.
Qed.

Lemma late_buttons_timeSpeed (inp : Input A) (s : State A) :
  timeSpeed (camButton inp (resetButton inp s)) = timeSpeed s.
Proof.
  unfold camButton, resetButton.
  destruct (GuiButton inp (rowButton inp 3)), (GuiButton inp (rowButton inp 4));
    reflexivity.
Qed.

Lemma simulate_timeSpeed (s : State A) : timeSpeed (simulate s) = timeSpeed s.
Proof. reflexivity. Qed.

(** The time speed at the end of a frame, from the one at its start. *)
Lemma frame_timeSpeed (inp : Input A) (s s' : State A) :
  frame inp s = Some s' ->
  timeSpeed s'
  = (let t1 := if GuiButton inp (minusButton inp) then slower (timeSpeed s)
               else timeSpeed s in
     if GuiButton inp (plusButton inp) then faster t1 else t1).
Proof.
  unfold frame. destruct (cameraLogic s) as [s1|] eqn:Hcam; [|discriminate].
  apply cameraLogic_Some in Hcam as [_ Ht1]. intros [= <-].
  unfold speedButtons. cbn [timeSpeed].
  rewrite late_buttons_timeSpeed, (proj2 (proj2 (toggles_same _ _))),
    simulate_timeSpeed, (proj1 (proj2 (creation_bodies _ _))),
    (proj2 (proj2 (orbit_same _ _))), Ht1.
  reflexivity.
Qed.

Lemma camButton_bodies (inp : Input A) (s : State A) :
  bodies (camButton inp s) = bodies s.
Proof. unfold camButton. destruct (GuiButton inp (rowButton inp 4)); reflexivity. Qed.

(** The registry at the end of a frame, from the one at its start. *)
Lemma frame_bodies (inp : Input A) (s s' : State A) :
  frame inp s = Some s' ->
  bodies s' = resetBodies
  \/ exists new, (length new <= 1)%nat
       /\ bodies s' = physics (isPaused s) (timeSpeed s) (bodies s ++ new).
Proof.
  unfold frame. destruct (cameraLogic s) as [s1|] eqn:Hcam; [|discriminate].
  intros [= <-].
  rewrite (proj1 (speedButtons_same _ _)).
  rewrite camButton_bodies. unfold resetButton.
  destruct (GuiButton inp (rowButton inp 3)); [left; reflexivity|right].
  rewrite (proj1 (toggles_same _ _)). unfold simulate. cbn [bodies].
  assert (Hflags : isPaused (creation inp (orbit inp s1)) = isPaused s
                   /\ timeSpeed (creation inp (orbit inp s1)) = timeSpeed s).
  { unfold creation. cbn [isPaused timeSpeed]. unfold orbit, cameraLogic in *.
    destruct (negb (cameraTarget s =? -1)%Z
              && (cameraTarget s <? Z.of_nat (length (bodies s)))%Z) in Hcam.
    - destruct (cameraTarget s <? 0)%Z; [discriminate|].
      destruct (bodies s !! Z.to_nat (cameraTarget s)); [|discriminate].
      injection Hcam as <-. cbn.
      destruct (negb (is2D s) && negb (isCreateMode s)
                && negb (touchingUI (mouseY inp) (screenH inp)));
        split; reflexivity.
    - injection Hcam as <-. cbn.
      destruct (negb (is2D s) && negb (isCreateMode s)
                && negb (touchingUI (mouseY inp) (screenH inp)));
        split; reflexivity. }
  destruct Hflags as [-> ->].
  apply cameraLogic_Some in Hcam as [Hb1 _].
  destruct (creation_bodies inp (orbit inp s1)) as (_ & _ & [Hsame|[b [Hnew _]]]).
  - exists []. split; [simpl; lia|].
    rewrite Hsame, (proj1 (orbit_same _ _)), Hb1, app_nil_r. reflexivity.
  - exists [b]. split; [simpl; lia|].
    rewrite Hnew, (proj1 (orbit_same _ _)), Hb1. reflexivity.
Qed.

End FrameEffects.

(** X21. For every scalar type: a frame that runs either ends with the
    reset registry (the reset button was hit), or removes no body: at most
    one body is appended, and every body already there keeps its index,
    mass, radius, colour and fixed flag. *)
Theorem frame_keeps_bodies_unless_reset {A : Type} `{Scalar A}
    (inp : Main.Input A) (s s' : Main.State A) :
  Main.frame inp s = Some s' ->
  Main.bodies s' = resetBodies
  \/ exists new, (length new <= 1)%nat
       /\ (fun b => (mass b, radius b, color b, isFixed b)) <$> Main.bodies s'
          = (fun b => (mass b, radius b, color b, isFixed b))
              <$> (Main.bodies s ++ new).
Proof.
  intros Hframe.
  destruct (frame_bodies inp s s' Hframe) as [Hreset|(new & Hlen & Hb)].
  - left. exact Hreset.
  - right. exists new. split; [exact Hlen|].
    rewrite Hb. apply physics_field; reflexivity.
Qed.

Lemma frame_keeps_bodies_unless_reset_witness :
  Main.frame FrameInputs.idle Main.initialState = Some FrameInputs.afterIdle
  /\ (Main.bodies FrameInputs.afterIdle = resetBodies
      \/ exists new, (length new <= 1)%nat
           /\ (fun b => (mass b, radius b, color b, isFixed b))
                <$> Main.bodies FrameInputs.afterIdle
              = (fun b => (mass b, radius b, color b, isFixed b))
                  <$> (Main.bodies Main.initialState ++ new)).
Proof.
  assert (Hframe : Main.frame FrameInputs.idle Main.initialState
                   = Some FrameInputs.afterIdle) by (vm_compute; reflexivity).
  split; [exact Hframe|].
  exact (frame_keeps_bodies_unless_reset _ _ _ Hframe).
Defined.

Section RealSpeed.
Import Exact Main.
Local Open Scope R_scope.

Lemma slower_pos (t : R) : 0 < t -> 0 < slower t.
Proof. intros Ht. unfold slower. reals. unfold Q2R. simpl. lra. Qed.

Lemma faster_pos (t : R) : 0 < t -> 0 < faster t.
Proof. intros Ht. unfold faster. reals. unfold Q2R. simpl. lra. Qed.

Lemma frame_timeSpeed_pos (inp : Input R) (s s' : State R) :
  frame inp s = Some s' -> 0 < timeSpeed s -> 0 < timeSpeed s'.
Proof.
  intros Hframe Ht. rewrite (frame_timeSpeed inp s s' Hframe). cbv zeta.
  destruct (GuiButton inp (minusButton inp)), (GuiButton inp (plusButton inp));
    auto using slower_pos, faster_pos.
Qed.

Lemma run_timeSpeed_pos (inputs : list (Input R)) (s s' : State R) :
  run inputs s = Some s' -> 0 < timeSpeed s -> 0 < timeSpeed s'.
Proof.
  revert s. induction inputs as [|inp inputs IH]; intros s Hrun Ht.
  - injection Hrun as <-. exact Ht.
  - cbn [run] in Hrun. destruct (frame inp s) as [s1|] eqn:Hframe; [|discriminate].
    apply (IH s1 Hrun). apply (frame_timeSpeed_pos inp s s1 Hframe Ht).
Qed.

End RealSpeed.

Lemma run_keeps_wellFormed_real (inputs : list (Main.Input R)) :
  exists s, Main.run inputs Main.initialState = Some s.
Proof.
  destruct (run_wellFormed inputs Main.initialState initialState_wellFormed)
    as (s & Hrun & _).
  exists s. exact Hrun.
Qed.

(** X22. In exact arithmetic, whatever the inputs, the loop started from
    the initial state reaches a state whose time speed is positive: the
    speed buttons never stop or reverse the simulation.  They do not undo
    each other either: minus then plus gives 0.96 times the speed. *)
Theorem time_speed_stays_positive (inputs : list (Main.Input R)) (t : R) :
  (exists s, Main.run inputs Main.initialState = Some s
             /\ (0 < Main.timeSpeed s)%R)
  /\ Main.faster (Main.slower t) = (0.96 * t)%R.
Proof.
  split.
  - destruct (run_keeps_wellFormed_real inputs) as (s & Hrun).
    exists s. split; [exact Hrun|].
    apply (run_timeSpeed_pos inputs Main.initialState s Hrun).
    unfold Main.initialState. cbn [Main.timeSpeed]. reals. rewrite Q2R_lit. lra.
  - unfold Main.faster, Main.slower. reals. unfold Q2R. simpl. lra.
Qed.

(** X23. The camera button walks through the bodies in registry order and
    then back to "no target": with [size] bodies, [k <= size] hits from the
    target -1 select body [k - 1], and one more hit after the last body
    gives -1 again. *)
Theorem camera_button_cycles (size k : nat) :
  (k <= size)%nat ->
  Nat.iter k (fun c => Main.nextTarget c size) (-1)%Z = (Z.of_nat k - 1)%Z
  /\ Nat.iter (S size) (fun c => Main.nextTarget c size) (-1)%Z = (-1)%Z.
Proof.
  assert (Hwalk : forall j, (j <= size)%nat ->
            Nat.iter j (fun c => Main.nextTarget c size) (-1)%Z = (Z.of_nat j - 1)%Z).
  { induction j as [|j IH]; intros Hj; [reflexivity|].
    change (Nat.iter (S j) (fun c => Main.nextTarget c size) (-1)%Z)
      with (Main.nextTarget (Nat.iter j (fun c => Main.nextTarget c size) (-1)%Z) size).
    rewrite IH by lia. unfold Main.nextTarget.
    replace (Z.of_nat size <=? Z.of_nat j - 1 + 1)%Z with false
      by (symmetry; apply Z.leb_gt; lia).
    lia. }
  intros Hk. split; [apply Hwalk; exact Hk|].
  change (Nat.iter (S size) (fun c => Main.nextTarget c size) (-1)%Z)
    with (Main.nextTarget (Nat.iter size (fun c => Main.nextTarget c size) (-1)%Z) size).
  rewrite Hwalk by lia. unfold Main.nextTarget.
  replace (Z.of_nat size <=? Z.of_nat size - 1 + 1)%Z with true
    by (symmetry; apply Z.leb_le; lia).
  reflexivity.
Qed.

Lemma camera_button_cycles_witness :
  (2 <= 3)%nat
  /\ Nat.iter 2 (fun c => Main.nextTarget c 3) (-1)%Z = (Z.of_nat 2 - 1)%Z
  /\ Nat.iter 4 (fun c => Main.nextTarget c 3) (-1)%Z = (-1)%Z.
Proof.
  assert (Hk : (2 <= 3)%nat) by lia.
  split; [exact Hk|].
  exact (camera_button_cycles 3 2 Hk).
Defined.

Section RealButtons.
Import Exact Main.
Local Open Scope R_scope.

Lemma fgeb_true (x y : R) : fgeb x y = true <-> y <= x.
Proof.
  unfold fgeb. reals. rewrite orb_true_iff, Rltb_true. unfold Reqb.
  destruct (Req_dec_T x y) as [Heq|Hne]; split.
  - intros _. lra.
  - intros _. right. reflexivity.
  - intros [Hlt|Hf]; [lra|discriminate].
  - intros Hle. left. lra.
Qed.

(** A hit, in exact arithmetic: a release inside the rectangle. *)
Lemma GuiButton_true (inp : Input R) (rect : Rectangle R) :
  GuiButton inp rect = true ->
  released (button inp) = true
  /\ rec_x rect <= x2 (mousePosition inp) < rec_x rect + rec_width rect
  /\ rec_y rect <= y2 (mousePosition inp) < rec_y rect + rec_height rect.
Proof.
  unfold GuiButton. destruct (released (button inp)); [|discriminate].
  destruct (CheckCollisionPointRec _ _) eqn:Hhit; [|discriminate].
  intros _. unfold CheckCollisionPointRec in Hhit.
  repeat (apply andb_true_iff in Hhit as [Hhit ?]).
  reals.
  repeat match goal with
         | Hc : fgeb _ _ = true |- _ => apply fgeb_true in Hc
         | Hc : Rltb _ _ = true |- _ => apply Rltb_true in Hc
         end.
  split; [reflexivity|]. split; split; assumption.
Qed.

Lemma rowButton_edges (inp : Input R) (k : Z) :
  rec_x (rowButton inp k) = IZR (btnW inp) * IZR k
  /\ rec_width (rowButton inp k) = IZR (btnW inp) - 5
  /\ rec_y (rowButton inp k) = IZR (screenH inp) - 90
  /\ rec_height (rowButton inp k) = 80.
Proof.
  unfold rowButton, btnY, btnH, ofZ. cbn [rec_x rec_y rec_width rec_height]. reals.
  rewrite !Q2R_inject_Z, Q2R_lit, !minus_IZR. split_and!; try reflexivity; lra.
Qed.

Lemma rows_apart (inp : Input R) (j k : Z) :
  (0 <= screenW inp)%Z -> (j < k)%Z ->
  GuiButton inp (rowButton inp j) = true ->
  GuiButton inp (rowButton inp k) = false.
Proof.
  intros Hw Hjk Hj.
  destruct (GuiButton inp (rowButton inp k)) eqn:Hk; [exfalso|reflexivity].
  apply GuiButton_true in Hj as (_ & [_ Hjx] & _).
  apply GuiButton_true in Hk as (_ & [Hkx _] & _).
  destruct (rowButton_edges inp j) as (Ej & Ewj & _).
  destruct (rowButton_edges inp k) as (Ek & _ & _).
  rewrite Ej, Ewj in Hjx. rewrite Ek in Hkx.
  assert (HW : 0 <= IZR (btnW inp)).
  { apply IZR_le. unfold btnW. apply Z.quot_pos; lia. }
  assert (Hstep : IZR j + 1 <= IZR k).
  { rewrite <- plus_IZR. apply IZR_le. lia. }
  nra.
Qed.

End RealButtons.

(** X24. In exact arithmetic, on a screen of non-negative width, one
    release hits at most one of the five buttons of the bottom row: two
    different buttons never both report a hit in the same frame. *)
Theorem release_hits_at_most_one_row_button (inp : Main.Input R) (j k : Z) :
  (0 <= Main.screenW inp)%Z -> j <> k ->
  Main.GuiButton inp (Main.rowButton inp j)
  && Main.GuiButton inp (Main.rowButton inp k) = false.
Proof.
  intros Hw Hjk.
  destruct (Main.GuiButton inp (Main.rowButton inp j)) eqn:Hj; [|reflexivity].
  destruct (Main.GuiButton inp (Main.rowButton inp k)) eqn:Hk; [|reflexivity].
  cbn [andb]. destruct (Z.lt_total j k) as [Hlt|[Heq|Hgt]].
  - rewrite (rows_apart inp j k Hw Hlt Hj) in Hk. discriminate.
  - contradiction.
  - rewrite (rows_apart inp k j Hw Hgt Hk) in Hj. discriminate.
Qed.

Lemma release_hits_at_most_one_row_button_witness :
  (0 <= Main.screenW FrameInputs.releaseOnMode)%Z /\ 0%Z <> 1%Z
  /\ Main.GuiButton FrameInputs.releaseOnMode
       (Main.rowButton FrameInputs.releaseOnMode 0) = true
  /\ Main.GuiButton FrameInputs.releaseOnMode
       (Main.rowButton FrameInputs.releaseOnMode 1) = false.
Proof.
  assert (Hw : (0 <= Main.screenW FrameInputs.releaseOnMode)%Z)
    by (unfold FrameInputs.releaseOnMode; cbn [Main.screenW]; lia).
  assert (Hne : 0%Z <> 1%Z) by lia.
  assert (Hhit : Main.GuiButton FrameInputs.releaseOnMode
                   (Main.rowButton FrameInputs.releaseOnMode 0) = true).
  { unfold Main.GuiButton, Main.CheckCollisionPointRec, Main.rowButton,
      Main.btnW, Main.btnY, Main.btnH, ofZ, FrameInputs.releaseOnMode.
    cbn [released Main.button Main.mousePosition Main.screenW Main.screenH
         Main.rec_x Main.rec_y Main.rec_width Main.rec_height].
    change (Z.quot 1080 5) with 216%Z.
    reals. rewrite !Q2R_inject_Z, !Q2R_lit, !minus_IZR.
    rewrite (proj2 (fgeb_true 100 (216 * 0))) by lra.
    rewrite (proj2 (Rltb_true 100 (216 * 0 + (216 - 5)))) by lra.
    rewrite (proj2 (fgeb_true 1850 (1920 - 80 - 10))) by lra.
    rewrite (proj2 (Rltb_true 1850 (1920 - 80 - 10 + 80))) by lra.
    reflexivity. }
  split; [exact Hw|]. split; [exact Hne|]. split; [exact Hhit|].
  pose proof (release_hits_at_most_one_row_button
                FrameInputs.releaseOnMode 0 1 Hw Hne) as Hone.
  rewrite Hhit in Hone. exact Hone.
Defined.

(** X25. In exact arithmetic, with [GetMouseY] the integer part of the
    pointer's y: a hit of any button of the bottom row lies inside the UI
    band (so the creation logic and the orbit camera ignore it), but a hit
    of the minus or of the plus button, on a screen at least 220 high, lies
    outside it (so the same release also reaches the creation logic). *)
Theorem speed_buttons_are_outside_the_ui_band (inp : Main.Input R) (k : Z) :
  (IZR (Main.mouseY inp) <= y2 (Main.mousePosition inp) < IZR (Main.mouseY inp) + 1)%R ->
  (Main.GuiButton inp (Main.rowButton inp k) = true ->
   touchingUI (Main.mouseY inp) (Main.screenH inp) = true)
  /\ ((220 <= Main.screenH inp)%Z ->
      Main.GuiButton inp (Main.minusButton inp) = true
      \/ Main.GuiButton inp (Main.plusButton inp) = true ->
      touchingUI (Main.mouseY inp) (Main.screenH inp) = false).
Proof.
  intros [Hlo Hhi]. split.
  - intros Hhit. apply GuiButton_true in Hhit as (_ & _ & [Hy _]).
    destruct (rowButton_edges inp k) as (_ & _ & Ey & _). rewrite Ey in Hy.
    assert (Hz : (Main.screenH inp - 90 < Main.mouseY inp + 1)%Z).
    { apply lt_IZR. rewrite plus_IZR, minus_IZR. lra. }
    unfold touchingUI. apply orb_true_iff. left. apply Z.ltb_lt. lia.
  - intros Hh Hhit.
    assert (Hy : (IZR (Main.screenH inp) - 140 <= y2 (Main.mousePosition inp)
                  < IZR (Main.screenH inp) - 100)%R).
    { destruct Hhit as [Hhit|Hhit];
        apply GuiButton_true in Hhit as (_ & _ & Hy);
        unfold Main.minusButton, Main.plusButton, Main.btnY, Main.btnH, ofZ in Hy;
        cbn [Main.rec_y Main.rec_height] in Hy; reals;
        rewrite !Q2R_inject_Z, !Q2R_lit, !minus_IZR in Hy; lra. }
    assert (Hz1 : (Main.screenH inp - 140 < Main.mouseY inp + 1)%Z).
    { apply lt_IZR. rewrite plus_IZR, minus_IZR. lra. }
    assert (Hz2 : (Main.mouseY inp < Main.screenH inp - 100)%Z).
    { apply lt_IZR. rewrite minus_IZR. lra. }
    unfold touchingUI. apply orb_false_iff. split.
    + apply Z.ltb_ge. lia.
    + apply Z.ltb_ge. lia.
Qed.

Lemma speed_buttons_are_outside_the_ui_band_witness :
  (IZR (Main.mouseY FrameInputs.releaseOnMinus)
   <= y2 (Main.mousePosition FrameInputs.releaseOnMinus)
   < IZR (Main.mouseY FrameInputs.releaseOnMinus) + 1)%R
  /\ (220 <= Main.screenH FrameInputs.releaseOnMinus)%Z
  /\ Main.GuiButton FrameInputs.releaseOnMinus
       (Main.minusButton FrameInputs.releaseOnMinus) = true
  /\ touchingUI (Main.mouseY FrameInputs.releaseOnMinus)
                (Main.screenH FrameInputs.releaseOnMinus) = false.
Proof.
  assert (Hy : (IZR (Main.mouseY FrameInputs.releaseOnMinus)
                <= y2 (Main.mousePosition FrameInputs.releaseOnMinus)
                < IZR (Main.mouseY FrameInputs.releaseOnMinus) + 1)%R).
  { unfold FrameInputs.releaseOnMinus. cbn [Main.mouseY Main.mousePosition y2]. lra. }
  assert (Hh : (220 <= Main.screenH FrameInputs.releaseOnMinus)%Z).
  { unfold FrameInputs.releaseOnMinus. cbn [Main.screenH]. lia. }
  assert (Hhit : Main.GuiButton FrameInputs.releaseOnMinus
                   (Main.minusButton FrameInputs.releaseOnMinus) = true).
  { unfold Main.GuiButton, Main.CheckCollisionPointRec, Main.minusButton,
      Main.btnY, Main.btnH, ofZ, FrameInputs.releaseOnMinus.
    cbn [released Main.button Main.mousePosition Main.screenW Main.screenH
         Main.rec_x Main.rec_y Main.rec_width Main.rec_height].
    reals. rewrite !Q2R_inject_Z, !Q2R_lit, !minus_IZR.
    rewrite (proj2 (fgeb_true 1000 (1080 - 120))) by lra.
    rewrite (proj2 (Rltb_true 1000 (1080 - 120 + 50))) by lra.
    rewrite (proj2 (fgeb_true 1790 (1920 - 80 - 10 - 50))) by lra.
    rewrite (proj2 (Rltb_true 1790 (1920 - 80 - 10 - 50 + 40))) by lra.
    reflexivity. }
  split; [exact Hy|]. split; [exact Hh|]. split; [exact Hhit|].
  exact (proj2 (speed_buttons_are_outside_the_ui_band
                  FrameInputs.releaseOnMinus 0 Hy) Hh (or_introl Hhit)).
Defined.

(** X26. For every scalar type: in a frame that starts paused, the bodies
    already in the registry are left exactly as they are, position and
    velocity included; the frame can still append one body through the
    builder, or end with the reset registry. *)
Theorem paused_frame_moves_nothing {A : Type} `{Scalar A}
    (inp : Main.Input A) (s s' : Main.State A) :
  Main.frame inp s = Some s' -> Main.isPaused s = true ->
  Main.bodies s' = resetBodies
  \/ exists new, (length new <= 1)%nat
                 /\ Main.bodies s' = Main.bodies s ++ new.
Proof.
  intros Hframe Hpaused.
  destruct (frame_bodies inp s s' Hframe) as [Hreset|(new & Hlen & Hb)].
  - left. exact Hreset.
  - right. exists new. split; [exact Hlen|].
    rewrite Hb, Hpaused. reflexivity.
Qed.

Lemma paused_frame_moves_nothing_witness :
  Main.frame FrameInputs.idle FrameInputs.paused = Some FrameInputs.afterPausedIdle
  /\ Main.isPaused FrameInputs.paused = true
  /\ (Main.bodies FrameInputs.afterPausedIdle = resetBodies
      \/ exists new, (length new <= 1)%nat
           /\ Main.bodies FrameInputs.afterPausedIdle
              = Main.bodies FrameInputs.paused ++ new).
Proof.
  assert (Hframe : Main.frame FrameInputs.idle FrameInputs.paused
                   = Some FrameInputs.afterPausedIdle) by (vm_compute; reflexivity).
  split; [exact Hframe|]. split; [reflexivity|].
  exact (paused_frame_moves_nothing _ _ _ Hframe eq_refl).
Defined.
